(** * Rental sessions of mnk_backend: the route handlers of
    [mnk_backend/routes/mnk_session.py] over an explicit entity store.

    Every handler of the source reads and writes the database through the
    class methods of the ORM models ([mnkSession.get], [mnkSession.update],
    [Item.update], ...) and may raise one of the service's exceptions.  Here a
    handler is a function from the store to an outcome and a new store.  The
    engine runs with [isolation_level = AUTOCOMMIT] (routes/base.py), so every
    write is kept when a later statement raises: a raise returns the store as
    it is at that point. *)

From Stdlib Require Import ZArith List String Bool Lia.
Import ListNotations.
Open Scope string_scope.
Open Scope list_scope.
Open Scope Z_scope.

(** ** Schemas and rows *)

(** [RentStatus] of [mnk_backend.schemas.models]: the six members the
    handlers name. *)
Inductive RentStatus : Type :=
| RESERVED | ACTIVE | CANCELED | OVERDUE | RETURNED | DISMISSED.

Definition RentStatus_eqb (a b : RentStatus) : bool :=
  match a, b with
  | RESERVED, RESERVED | ACTIVE, ACTIVE | CANCELED, CANCELED
  | OVERDUE, OVERDUE | RETURNED, RETURNED | DISMISSED, DISMISSED => true
  | _, _ => false
  end.

(** Python's [status in to_show]. *)
Definition status_in (s : RentStatus) (l : list RentStatus) : bool :=
  existsb (RentStatus_eqb s) l.

(** A status that still holds its item: neither CANCELED, DISMISSED nor
    RETURNED. *)
Definition non_terminal (s : RentStatus) : bool :=
  match s with
  | RESERVED | ACTIVE | OVERDUE => true
  | CANCELED | DISMISSED | RETURNED => false
  end.

(** A row of [Item]. *)
Record Item : Type := mkItem {
  i_id : Z;
  i_type_id : Z;
  i_is_available : bool
}.

(** A row of [mnkSession]; a nullable column is an [option]. *)
Record mnkSession : Type := mkSession {
  s_id : Z;
  s_user_id : Z;
  s_item_id : Z;
  s_admin_open_id : option Z;
  s_admin_close_id : option Z;
  s_reservation_ts : Z;
  s_start_ts : option Z;
  s_end_ts : option Z;
  s_actual_return_ts : option Z;
  s_status : RentStatus
}.

(** The response schema [mnkSessionGet] carries the row's columns. *)
Definition mnkSessionGet : Type := mnkSession.

(** [StrikePost]: the body handed to [create_strike]. *)
Record StrikePost : Type := mkStrikePost {
  sp_user_id : Z;
  sp_admin_id : Z;
  sp_reason : string;
  sp_session_id : Z
}.

(** One value of the [details] dict of an audit record. *)
Inductive Detail : Type :=
| DStatus (s : RentStatus)
| DItem (item_id : Z).

(** One call of [ActionLogger.log_event]. *)
Record Action : Type := mkAction {
  a_user_id : Z;
  a_admin_id : option Z;
  a_session_id : Z;
  a_action_type : string;
  a_details : list (string * Detail)
}.

(** The database and the process state the handlers touch: the two tables,
    the strikes, the audit trail and the expiry checks handed to
    [background_tasks]. *)
Record Store : Type := mkStore {
  items : list Item;
  sessions : list mnkSession;
  strikes : list StrikePost;
  actions : list Action;
  background_tasks : list Z
}.

(** ** Exceptions and the handler monad *)

(** The exceptions of [mnk_backend.exceptions] the handlers raise,
    pydantic's validation failure and SQLAlchemy's refusal of several rows
    where one is asked for. *)
Inductive Exn : Type :=
| NoneAvailable | ObjectNotFound | InactiveSession
| ValidationError | MultipleResultsFound.

Inductive Outcome (A : Type) : Type :=
| Ok (a : A)
| Raise (e : Exn).
Arguments Ok {A} a.
Arguments Raise {A} e.

Definition Handler (A : Type) : Type := Store -> Outcome A * Store.

Definition ret {A : Type} (a : A) : Handler A := fun db => (Ok a, db).

Definition raise {A : Type} (e : Exn) : Handler A := fun db => (Raise e, db).

Definition bind {A B : Type} (m : Handler A) (k : A -> Handler B) : Handler B :=
  fun db =>
    match m db with
    | (Ok a, db') => k a db'
    | (Raise e, db') => (Raise e, db')
    end.

Notation "x <- m ;; k" := (bind m (fun x => k))
  (at level 61, m at next level, right associativity).
Notation "m ;;; k" := (bind m (fun _ => k))
  (at level 61, right associativity).

(** The store a handler leaves, whether it returned or raised. *)
Definition after {A : Type} (h : Handler A) (db : Store) : Store := snd (h db).

(** ** The entity store *)

Definition set_available (b : bool) (it : Item) : Item :=
  mkItem (i_id it) (i_type_id it) b.

Definition has_item_id (id : Z) (it : Item) : bool := i_id it =? id.
Definition has_session_id (id : Z) (s : mnkSession) : bool := s_id s =? id.

(** Applies [f] to every row [p] selects. *)
Definition update_rows {A : Type} (p : A -> bool) (f : A -> A) (l : list A) : list A :=
  map (fun r => if p r then f r else r) l.

(** The row of each table with a given id, if any. *)
Definition item_of (id : Z) (db : Store) : option Item :=
  find (has_item_id id) (items db).

Definition session_of (id : Z) (db : Store) : option mnkSession :=
  find (has_session_id id) (sessions db).

(** Modelled from the spec: the entity store of section 6 (create, get,
    update and filtered query per entity type; [mnk_backend/models/db.py] is
    absent).  [Item.query(...).filter(p).all()]: the rows [p] selects, in
    table order. *)
Definition Item_query (p : Item -> bool) : Handler (list Item) :=
  fun db => (Ok (filter p (items db)), db).

(** Modelled from the spec: [Item.update(id=.., is_available=b)] writes the
    flag of the row with that id and returns the row; an id without a row is
    the store's not-found error. *)
Definition Item_update (id : Z) (b : bool) : Handler Item :=
  fun db =>
    match item_of id db with
    | Some it =>
        (Ok (set_available b it),
         mkStore (update_rows (has_item_id id) (set_available b) (items db))
                 (sessions db) (strikes db) (actions db) (background_tasks db))
    | None => (Raise ObjectNotFound, db)
    end.

(** Modelled from the spec: [mnkSession.get(id=..)]; the handlers test its
    result with [if not session], so a missing id gives [None]. *)
Definition mnkSession_get (id : Z) : Handler (option mnkSession) :=
  fun db => (Ok (session_of id db), db).

(** Modelled from the spec: [mnkSession.query(...).filter(p).all()]. *)
Definition mnkSession_query (p : mnkSession -> bool) : Handler (list mnkSession) :=
  fun db => (Ok (filter p (sessions db)), db).

(** SQLAlchemy's [Query.one_or_none] on the rows a query selects. *)
Definition one_or_none {A : Type} (rows : list A) : Handler (option A) :=
  match rows with
  | [] => ret None
  | [row] => ret (Some row)
  | _ :: _ :: _ => raise MultipleResultsFound
  end.

(** The next value of the primary-key sequence: above every id in use. *)
Definition fresh_id (l : list mnkSession) : Z :=
  1 + fold_right Z.max 0 (map s_id l).

(** Modelled from the spec: [mnkSession.create(user_id, item_id,
    reservation_ts, status)] adds a row with a new id, its nullable columns
    unset, and returns it. *)
Definition mnkSession_create (user_id item_id reservation_ts : Z) (status : RentStatus)
  : Handler mnkSession :=
  fun db =>
    let row := mkSession (fresh_id (sessions db)) user_id item_id None None
                         reservation_ts None None None status in
    (Ok row,
     mkStore (items db) (sessions db ++ [row]) (strikes db) (actions db)
             (background_tasks db)).

(** The keyword arguments of a [mnkSession.update] call: a column that is
    passed is written, the others keep their value. *)
Record Columns : Type := mkColumns {
  c_status : option RentStatus;
  c_start_ts : option Z;
  c_end_ts : option Z;
  c_actual_return_ts : option Z;
  c_admin_open_id : option Z;
  c_admin_close_id : option Z
}.

Definition written {A : Type} (new : option A) (old : A) : A :=
  match new with Some v => v | None => old end.

Definition nullable {A : Type} (new old : option A) : option A :=
  match new with Some v => Some v | None => old end.

Definition setattrs (c : Columns) (s : mnkSession) : mnkSession :=
  mkSession (s_id s) (s_user_id s) (s_item_id s)
            (nullable (c_admin_open_id c) (s_admin_open_id s))
            (nullable (c_admin_close_id c) (s_admin_close_id s))
            (s_reservation_ts s)
            (nullable (c_start_ts c) (s_start_ts s))
            (nullable (c_end_ts c) (s_end_ts s))
            (nullable (c_actual_return_ts c) (s_actual_return_ts s))
            (written (c_status c) (s_status s)).

(** Modelled from the spec: [mnkSession.update(id=.., **fields)] writes the
    given columns of the row with that id and returns the row; an id without
    a row is the store's not-found error. *)
Definition mnkSession_update (id : Z) (fields : Columns) : Handler mnkSession :=
  fun db =>
    match session_of id db with
    | Some s =>
        (Ok (setattrs fields s),
         mkStore (items db)
                 (update_rows (has_session_id id) (setattrs fields) (sessions db))
                 (strikes db) (actions db) (background_tasks db))
    | None => (Raise ObjectNotFound, db)
    end.

(** Modelled from the spec: [ActionLogger.log_event] appends one record to
    the audit trail ([mnk_backend/utils/action.py] is absent). *)
Definition log_event (user_id : Z) (admin_id : option Z) (session_id : Z)
  (action_type : string) (details : list (string * Detail)) : Handler unit :=
  fun db =>
    (Ok tt,
     mkStore (items db) (sessions db) (strikes db)
             (actions db ++ [mkAction user_id admin_id session_id action_type details])
             (background_tasks db)).

(** [background_tasks.add_task(check_session_expiration, session_id)]. *)
Definition add_task (session_id : Z) : Handler unit :=
  fun db =>
    (Ok tt,
     mkStore (items db) (sessions db) (strikes db) (actions db)
             (background_tasks db ++ [session_id])).

(** Modelled from the spec: [create_strike] of section 4.4, pure creation of
    one Strike record ([mnk_backend/routes/strike.py] is absent). *)
Definition create_strike (strike_info : StrikePost) : Handler unit :=
  fun db =>
    (Ok tt,
     mkStore (items db) (sessions db) (strikes db ++ [strike_info]) (actions db)
             (background_tasks db)).

(** [mnkSessionGet.model_validate(obj)]: the response built from a row;
    pydantic refuses [None]. *)
Definition model_validate (obj : option mnkSession) : Handler mnkSessionGet :=
  match obj with
  | Some s => ret s
  | None => raise ValidationError
  end.

(** ** The handlers of routes/mnk_session.py *)

(** [check_session_expiration], the body that runs once the
    [mnk_SESSION_EXPIRY] sleep is over. *)
Definition check_session_expiration (session_id : Z) : Handler unit :=
  rows <- mnkSession_query (has_session_id session_id) ;;
  found <- one_or_none rows ;;
  match found with
  | Some session =>
      if RentStatus_eqb (s_status session) RESERVED then
        mnkSession_update session_id
          (mkColumns (Some CANCELED) None None None None None) ;;;
        Item_update (s_item_id session) true ;;;
        log_event (s_user_id session) None (s_id session) "EXPIRE_SESSION"
                  [("status", DStatus CANCELED)]
      else ret tt
  | None => ret tt
  end.

(** [create_mnk_session]; [user] is [user.get("id")] and [now] the clock
    reading of [datetime.now]. *)
Definition create_mnk_session (item_type_id user now : Z) : Handler mnkSessionGet :=
  available_items <-
    Item_query (fun it => (i_type_id it =? item_type_id)
                          && Bool.eqb (i_is_available it) true) ;;
  match available_items with
  | [] => raise NoneAvailable
  | first :: _ =>
      session <- mnkSession_create user (i_id first) now RESERVED ;;
      Item_update (i_id first) false ;;;
      add_task (s_id session) ;;;
      log_event user None (s_id session) "CREATE_SESSION"
                [("item_id", DItem (s_item_id session)); ("status", DStatus RESERVED)] ;;;
      model_validate (Some session)
  end.

(** [start_mnk_session]. *)
Definition start_mnk_session (session_id user now : Z) : Handler mnkSessionGet :=
  found <- mnkSession_get session_id ;;
  match found with
  | None => raise ObjectNotFound
  | Some session =>
      updated_session <-
        mnkSession_update session_id
          (mkColumns (Some ACTIVE) (Some now) None None (Some user) None) ;;
      log_event (s_user_id session) (Some user) (s_id session) "START_SESSION"
                [("status", DStatus ACTIVE)] ;;;
      model_validate (Some updated_session)
  end.

(** [accept_end_mnk_session]; [now_end] and [now_return] are the readings of
    the two [datetime.now] calls, in the order the arguments are evaluated
    (the first is read only when [end_ts] is unset). *)
Definition accept_end_mnk_session (session_id : Z) (with_strike : bool)
  (strike_reason : string) (user now_end now_return : Z) : Handler mnkSessionGet :=
  found <- mnkSession_get session_id ;;
  match found with
  | None => raise ObjectNotFound
  | Some rent_session =>
      if negb (RentStatus_eqb (s_status rent_session) ACTIVE) then
        raise InactiveSession
      else
        ended_session <-
          mnkSession_update session_id
            (mkColumns (Some RETURNED) None
                       (match s_end_ts rent_session with
                        | None => Some now_end
                        | Some end_ts => Some end_ts
                        end)
                       (Some now_return) None (Some user)) ;;
        log_event (s_user_id rent_session) (Some user) (s_id rent_session)
                  "RETURN_SESSION" [("status", DStatus RETURNED)] ;;;
        (if with_strike then
           create_strike (mkStrikePost (s_user_id ended_session) user strike_reason
                                       (s_id rent_session))
         else ret tt) ;;;
        model_validate (Some ended_session)
  end.

(** The comprehension [[mnkSessionGet.model_validate(row) for row in rows]]. *)
Fixpoint validate_all (rows : list mnkSession) : Handler (list mnkSessionGet) :=
  match rows with
  | [] => ret []
  | row :: rest =>
      validated <- model_validate (Some row) ;;
      others <- validate_all rest ;;
      ret (validated :: others)
  end.


(** [get_mnk_session]: no test of what [get] returned. *)
Definition get_mnk_session (session_id : Z) : Handler mnkSessionGet :=
  session <- mnkSession_get session_id ;;
  model_validate session.

(** The list [to_show] that [get_mnk_sessions] builds from its six flags. *)
Definition to_show (is_reserved is_canceled is_dismissed is_overdue is_returned
                    is_active : bool) : list RentStatus :=
  (if is_reserved then [RESERVED] else [])
  ++ (if is_canceled then [CANCELED] else [])
  ++ (if is_dismissed then [DISMISSED] else [])
  ++ (if is_overdue then [OVERDUE] else [])
  ++ (if is_returned then [RETURNED] else [])
  ++ (if is_active then [ACTIVE] else []).

(** [get_mnk_sessions]. *)
Definition get_mnk_sessions (is_reserved is_canceled is_dismissed is_overdue
                             is_returned is_active : bool)
  : Handler (list mnkSessionGet) :=
  rent_sessions <-
    mnkSession_query
      (fun s => status_in (s_status s)
                  (to_show is_reserved is_canceled is_dismissed is_overdue
                           is_returned is_active)) ;;
  validate_all rent_sessions.

(** ** The status filter in the words of the specification *)

(** Whether the flags select a status: each status has its own flag. *)
Definition selected (is_reserved is_canceled is_dismissed is_overdue is_returned
                     is_active : bool) (s : RentStatus) : bool :=
  match s with
  | RESERVED => is_reserved
  | CANCELED => is_canceled
  | DISMISSED => is_dismissed
  | OVERDUE => is_overdue
  | RETURNED => is_returned
  | ACTIVE => is_active
  end.

(** ** Integrity of the store *)

(** The primary key of [mnkSession]: no two rows share an id. *)
Definition session_pk (db : Store) : Prop := NoDup (map s_id (sessions db)).

(** The columns [accept_end_mnk_session] writes. *)
Definition return_columns (rent_session : mnkSession) (user now_end now_return : Z)
  : Columns :=
  mkColumns (Some RETURNED) None
            (match s_end_ts rent_session with
             | None => Some now_end
             | Some end_ts => Some end_ts
             end)
            (Some now_return) None (Some user).

(** The store once the RETURNED row is written and the audit record is
    appended, before any strike. *)
Definition return_committed (session_id : Z) (rent_session : mnkSession)
  (user now_end now_return : Z) (db : Store) : Store :=
  mkStore (items db)
          (update_rows (has_session_id session_id)
             (setattrs (return_columns rent_session user now_end now_return))
             (sessions db))
          (strikes db)
          (actions db ++ [mkAction (s_user_id rent_session) (Some user)
                                   (s_id rent_session) "RETURN_SESSION"
                                   [("status", DStatus RETURNED)]])
          (background_tasks db).

(** The columns [check_session_expiration] writes. *)
Definition expire_columns : Columns :=
  mkColumns (Some CANCELED) None None None None None.

(** The store once an expiry has cancelled [session] and released its item. *)
Definition expired (session : mnkSession) (db : Store) : Store :=
  mkStore (update_rows (has_item_id (s_item_id session)) (set_available true) (items db))
          (update_rows (has_session_id (s_id session)) (setattrs expire_columns)
                       (sessions db))
          (strikes db)
          (actions db ++ [mkAction (s_user_id session) None (s_id session)
                                   "EXPIRE_SESSION" [("status", DStatus CANCELED)]])
          (background_tasks db).

(** The columns [start_mnk_session] writes. *)
Definition start_columns (user now : Z) : Columns :=
  mkColumns (Some ACTIVE) (Some now) None None (Some user) None.

(** The store once [session] is started. *)
Definition started (session : mnkSession) (user now : Z) (db : Store) : Store :=
  mkStore (items db)
          (update_rows (has_session_id (s_id session)) (setattrs (start_columns user now))
                       (sessions db))
          (strikes db)
          (actions db ++ [mkAction (s_user_id session) (Some user) (s_id session)
                                   "START_SESSION" [("status", DStatus ACTIVE)]])
          (background_tasks db).

(** The filter of [create_mnk_session]: an available item of the type. *)
Definition available_of_type (item_type_id : Z) (it : Item) : bool :=
  (i_type_id it =? item_type_id) && Bool.eqb (i_is_available it) true.

(** The row [create_mnk_session] adds for the item it chose. *)
Definition new_session (first : Item) (user now : Z) (db : Store) : mnkSession :=
  mkSession (fresh_id (sessions db)) user (i_id first) None None now None None None
            RESERVED.

(** The store once a session on [first] is created. *)
Definition created (first : Item) (user now : Z) (db : Store) : Store :=
  mkStore (update_rows (has_item_id (i_id first)) (set_available false) (items db))
          (sessions db ++ [new_session first user now db])
          (strikes db)
          (actions db ++ [mkAction user None (fresh_id (sessions db)) "CREATE_SESSION"
                                   [("item_id", DItem (i_id first));
                                    ("status", DStatus RESERVED)]])
          (background_tasks db ++ [fresh_id (sessions db)]).

(** ** The operations of the specification *)

(** The four core operations of section 4.2 with their arguments. *)
Inductive Operation : Type :=
| Create (item_type_id user now : Z)
| Start (session_id user now : Z)
| Return (session_id : Z) (with_strike : bool) (strike_reason : string)
         (user now_end now_return : Z)
| ExpireIfUnclaimed (session_id : Z).

(** A handler run for its effect. *)
Definition discard {A : Type} (h : Handler A) : Handler unit :=
  h ;;; ret tt.

Definition perform (op : Operation) : Handler unit :=
  match op with
  | Create item_type_id user now =>
      discard (create_mnk_session item_type_id user now)
  | Start session_id user now =>
      discard (start_mnk_session session_id user now)
  | Return session_id with_strike strike_reason user now_end now_return =>
      discard (accept_end_mnk_session session_id with_strike strike_reason user
                                      now_end now_return)
  | ExpireIfUnclaimed session_id => check_session_expiration session_id
  end.

(** A request a client sends, as opposed to the background expiry. *)
Definition is_request (op : Operation) : bool :=
  match op with
  | ExpireIfUnclaimed _ => false
  | _ => true
  end.

(** Whether [op] is a Start of session [session_id]. *)
Definition starts (op : Operation) (session_id : Z) : bool :=
  match op with
  | Start id _ _ => id =? session_id
  | _ => false
  end.

(** The edges of the state diagram of section 4.2. *)
Definition edge (a b : RentStatus) : bool :=
  match a, b with
  | RESERVED, ACTIVE | RESERVED, CANCELED | RESERVED, DISMISSED
  | ACTIVE, RETURNED | ACTIVE, OVERDUE | OVERDUE, RETURNED => true
  | _, _ => false
  end.

(** The edges the four operations take. *)
Definition taken_edge (a b : RentStatus) : bool :=
  match a, b with
  | RESERVED, ACTIVE | RESERVED, CANCELED | ACTIVE, RETURNED => true
  | _, _ => false
  end.

(** The status stays, or moves along an edge the operations take. *)
Definition moved (a b : RentStatus) : Prop := b = a \/ taken_edge a b = true.

(** ** The availability invariant of section 3 *)

(** The session is on the item and is RESERVED, ACTIVE or OVERDUE. *)
Definition holds (item_id : Z) (s : mnkSession) : bool :=
  (s_item_id s =? item_id) && non_terminal (s_status s).

(** Some session holds the item. *)
Definition held (item_id : Z) (db : Store) : bool :=
  existsb (holds item_id) (sessions db).

(** How many sessions hold the item. *)
Definition holders (item_id : Z) (db : Store) : nat :=
  List.length (filter (holds item_id) (sessions db)).

(** What one row adds to a count. *)
Definition one_if (b : bool) : nat := if b then 1%nat else 0%nat.

(** An item is attached to at most one non-terminal session. *)
Definition one_holder (db : Store) : Prop :=
  forall item_id, (holders item_id db <= 1)%nat.

(** Every item is unavailable exactly when it is held. *)
Definition availability_invariant (db : Store) : bool :=
  forallb (fun it => Bool.eqb (negb (i_is_available it)) (held (i_id it) db))
          (items db).

(** The store is consistent: the availability invariant holds, no item has
    two holders and the session ids are a key. *)
Definition consistent (db : Store) : Prop :=
  availability_invariant db = true /\ one_holder db /\ session_pk db.

(** The store after a sequence of operations, each run to its end. *)
Fixpoint perform_all (ops : list Operation) (db : Store) : Store :=
  match ops with
  | [] => db
  | op :: rest => perform_all rest (after (perform op) db)
  end.

(** [op] is neither a Return that will be accepted nor a Start of a session
    that is CANCELED, DISMISSED or RETURNED. *)
Definition harmless (op : Operation) (db : Store) : Prop :=
  match op with
  | Create _ _ _ | ExpireIfUnclaimed _ => True
  | Start session_id _ _ =>
      forall s, session_of session_id db = Some s -> non_terminal (s_status s) = true
  | Return session_id _ _ _ _ _ =>
      forall s, session_of session_id db = Some s -> s_status s <> ACTIVE
  end.

Fixpoint harmless_all (ops : list Operation) (db : Store) : Prop :=
  match ops with
  | [] => True
  | op :: rest => harmless op db /\ harmless_all rest (after (perform op) db)
  end.

(** ** Start against the expiry check *)

(** The two orders in which the bodies of [start_mnk_session] and of
    [check_session_expiration] can run: neither awaits once it has begun, so
    the event loop runs each to its end. *)
Inductive Schedule : Type := StartFirst | ExpireFirst.

Definition race (order : Schedule) (session_id user now : Z) (db : Store)
  : Outcome mnkSessionGet * Outcome unit * Store :=
  match order with
  | StartFirst =>
      let (started_as, db1) := start_mnk_session session_id user now db in
      let (expired_as, db2) := check_session_expiration session_id db1 in
      (started_as, expired_as, db2)
  | ExpireFirst =>
      let (expired_as, db1) := check_session_expiration session_id db in
      let (started_as, db2) := start_mnk_session session_id user now db1 in
      (started_as, expired_as, db2)
  end.

(** ** Stores of the specification's scenarios *)

(** One item, id 7 of type 1, free; nothing else. *)
Definition one_free_item : Store :=
  mkStore [mkItem 7 1 true] [] [] [] [].

(** The same item taken and no session: nothing of type 1 can be offered. *)
Definition nothing_free : Store :=
  mkStore [mkItem 7 1 false; mkItem 8 2 true] [] [] [] [].

(** User 1 has reserved item 7 at time 100 (session 1). *)
Definition reserved_store : Store := after (create_mnk_session 1 1 100) one_free_item.

(** Admin 9 has started session 1 at time 200. *)
Definition active_store : Store := after (start_mnk_session 1 9 200) reserved_store.

(** A session of status [st] on item 7, with the item marked as taken. *)
Definition store_with_status (st : RentStatus) : Store :=
  mkStore [mkItem 7 1 false]
          [mkSession 1 1 7 (Some 9) None 100 (Some 200) None None st] [] [] [].

(** Admin 9 has taken item 7 back at time 300. *)
Definition returned_store : Store :=
  after (accept_end_mnk_session 1 false "" 9 300 301) active_store.

(** ** Further vocabulary for the handlers *)

(** The primary key of [Item]: no two rows share an id. *)
Definition item_pk (db : Store) : Prop := NoDup (map i_id (items db)).

(** How many items of a type [create_mnk_session] could still offer. *)
Definition available_count (item_type_id : Z) (db : Store) : nat :=
  List.length (filter (available_of_type item_type_id) (items db)).

(** The session an operation names, if it names one. *)
Definition target (op : Operation) : option Z :=
  match op with
  | Create _ _ _ => None
  | Start session_id _ _ => Some session_id
  | Return session_id _ _ _ _ _ => Some session_id
  | ExpireIfUnclaimed session_id => Some session_id
  end.

(** The [action_type] a handler passes to [ActionLogger.log_event]. *)
Definition action_tag (op : Operation) : string :=
  match op with
  | Create _ _ _ => "CREATE_SESSION"
  | Start _ _ _ => "START_SESSION"
  | Return _ _ _ _ _ _ => "RETURN_SESSION"
  | ExpireIfUnclaimed _ => "EXPIRE_SESSION"
  end.

(** The [admin_id] a handler passes to [ActionLogger.log_event]. *)
Definition acting_admin (op : Operation) : option Z :=
  match op with
  | Create _ _ _ | ExpireIfUnclaimed _ => None
  | Start _ user _ => Some user
  | Return _ _ _ user _ _ => Some user
  end.

(** Two items of type 1, ids 7 and 8, both free. *)
Definition two_free_items : Store :=
  mkStore [mkItem 7 1 true; mkItem 8 1 true] [] [] [] [].

(** * Properties *)

(** Closes the case of a request that raised on the store it was given. *)
Ltac refused :=
  let e := fresh "e" in let He := fresh "He" in
  intros _ e He; inversion He; subst; split; [reflexivity | auto].

(** ** Rows and lookups *)

Lemma RentStatus_eqb_eq (a b : RentStatus) : RentStatus_eqb a b = true <-> a = b.
Proof. destruct a, b; simpl; split; intro H; try reflexivity; discriminate H. Qed.

Lemma RentStatus_eqb_neq (a b : RentStatus) : RentStatus_eqb a b = false <-> a <> b.
Proof.
  destruct a, b; simpl; split; intro H; try reflexivity; try discriminate H;
    try (intro E; discriminate E); exfalso; apply H; reflexivity.
Qed.

Lemma setattrs_id (c : Columns) (s : mnkSession) : s_id (setattrs c s) = s_id s.
Proof. reflexivity. Qed.

Lemma setattrs_item_id (c : Columns) (s : mnkSession) :
  s_item_id (setattrs c s) = s_item_id s.
Proof. reflexivity. Qed.

Lemma find_absent {A : Type} (p : A -> bool) (l : list A) :
  (forall x, In x l -> p x = false) -> find p l = None.
Proof.
  induction l as [|a l IH]; simpl; intro H; [reflexivity|].
  rewrite (H a (or_introl eq_refl)). apply IH. intros x Hx. apply H. now right.
Qed.

Lemma filter_absent {A : Type} (p : A -> bool) (l : list A) :
  (forall x, In x l -> p x = false) -> filter p l = [].
Proof.
  induction l as [|a l IH]; simpl; intro H; [reflexivity|].
  rewrite (H a (or_introl eq_refl)). apply IH. intros x Hx. apply H. now right.
Qed.

(** A lookup after an update of the same id sees the written row. *)
Lemma find_update_same (id : Z) (c : Columns) (l : list mnkSession) :
  find (has_session_id id) (update_rows (has_session_id id) (setattrs c) l)
  = option_map (setattrs c) (find (has_session_id id) l).
Proof.
  induction l as [|a l IH]; simpl; [reflexivity|].
  destruct (has_session_id id a) eqn:E.
  - unfold has_session_id in *. rewrite setattrs_id, E. reflexivity.
  - rewrite E. exact IH.
Qed.

(** A lookup of another id is not affected by an update. *)
Lemma find_update_other (id id' : Z) (c : Columns) (l : list mnkSession) :
  id' <> id ->
  find (has_session_id id') (update_rows (has_session_id id) (setattrs c) l)
  = find (has_session_id id') l.
Proof.
  intro N. induction l as [|a l IH]; simpl; [reflexivity|].
  destruct (has_session_id id a) eqn:E.
  - unfold has_session_id in *. rewrite setattrs_id.
    apply Z.eqb_eq in E. destruct (s_id a =? id') eqn:E'.
    + apply Z.eqb_eq in E'. congruence.
    + exact IH.
  - destruct (has_session_id id' a); [reflexivity | exact IH].
Qed.

Lemma find_has_id (id : Z) (l : list mnkSession) (s : mnkSession) :
  find (has_session_id id) l = Some s -> In s l /\ s_id s = id.
Proof.
  intro H. apply find_some in H. destruct H as [Hin E].
  split; [exact Hin | now apply Z.eqb_eq].
Qed.

(** Under the primary key the query by id selects the row [get] finds. *)
Lemma filter_by_pk (id : Z) (l : list mnkSession) (s : mnkSession) :
  NoDup (map s_id l) ->
  find (has_session_id id) l = Some s ->
  filter (has_session_id id) l = [s].
Proof.
  induction l as [|a l IH]; simpl; intros ND H; [discriminate H|].
  inversion ND as [|x xs Hnotin ND' Heq]; subst.
  destruct (has_session_id id a) eqn:E.
  - injection H as <-. f_equal. apply filter_absent. intros x Hx.
    unfold has_session_id in *. apply Z.eqb_eq in E. apply Z.eqb_neq.
    intro Ex. apply Hnotin. rewrite E, <- Ex. now apply in_map.
  - now apply IH.
Qed.

Lemma find_filter_nil {A : Type} (p : A -> bool) (l : list A) :
  find p l = None -> filter p l = [].
Proof.
  induction l as [|a l IH]; simpl; [reflexivity|].
  destruct (p a); [discriminate | exact IH].
Qed.

(** ** Create *)

(** C5: when no item of the requested type is available, Create raises
    [NoneAvailable] (the specification's NoAvailableItem) and the store is the
    one it was given: no session is created and no item is written. *)
Theorem create_none_available (item_type_id user now : Z) (db : Store) :
  (forall it, In it (items db) -> i_type_id it = item_type_id ->
              i_is_available it = false) ->
  create_mnk_session item_type_id user now db = (Raise NoneAvailable, db).
Proof.
  intro H. unfold create_mnk_session, bind, Item_query.
  rewrite filter_absent; [reflexivity|].
  intros it Hin. destruct (i_type_id it =? item_type_id) eqn:E; [|reflexivity].
  apply Z.eqb_eq in E. rewrite (H it Hin E). reflexivity.
Qed.

Lemma create_none_available_witness :
  create_mnk_session 1 1 100 nothing_free = (Raise NoneAvailable, nothing_free).
Proof.
  apply (create_none_available 1 1 100 nothing_free).
  intros it [<-|[<-|[]]] E; [reflexivity | discriminate E].
Defined.

(** ** Queries *)

Lemma status_in_to_show (r c d o t a : bool) (s : RentStatus) :
  status_in s (to_show r c d o t a) = selected r c d o t a s.
Proof. destruct r, c, d, o, t, a, s; reflexivity. Qed.

(** Rows read from the table always validate. *)
Lemma validate_all_rows (rows : list mnkSession) (db : Store) :
  validate_all rows db = (Ok rows, db).
Proof.
  induction rows as [|row rest IH]; [reflexivity|].
  cbn [validate_all]. unfold bind. cbn [model_validate ret]. rewrite IH. reflexivity.
Qed.

(** C9: with the six flags false the list-by-status query returns the empty
    list; with any flags it returns, in table order, exactly the stored
    sessions whose status has its flag set; the store is not written. *)
Theorem get_mnk_sessions_by_status (r c d o t a : bool) (db : Store) :
  get_mnk_sessions false false false false false false db = (Ok [], db)
  /\ get_mnk_sessions r c d o t a db
     = (Ok (filter (fun s => selected r c d o t a (s_status s)) (sessions db)), db).
Proof.
  unfold get_mnk_sessions, bind, mnkSession_query. split.
  - rewrite filter_absent; [reflexivity|]. intros x _. reflexivity.
  - rewrite (filter_ext _ (fun s => selected r c d o t a (s_status s)));
      [apply validate_all_rows|]. intro s. apply status_in_to_show.
Qed.

(** C10: for an id no stored session has, the get-by-id query does not raise
    [ObjectNotFound]: it hands [None] to [model_validate] and ends in the
    validation failure, the store untouched. *)
Theorem get_mnk_session_missing (session_id : Z) (db : Store) :
  (forall s, In s (sessions db) -> s_id s <> session_id) ->
  get_mnk_session session_id db = (Raise ValidationError, db)
  /\ fst (get_mnk_session session_id db) <> Raise ObjectNotFound.
Proof.
  intro H. assert (E : get_mnk_session session_id db = (Raise ValidationError, db)).
  { unfold get_mnk_session, bind, mnkSession_get, session_of.
    rewrite find_absent; [reflexivity|].
    intros s Hs. apply Z.eqb_neq. now apply H. }
  split; [exact E|]. rewrite E. discriminate.
Qed.

Lemma get_mnk_session_missing_witness :
  get_mnk_session 2 reserved_store = (Raise ValidationError, reserved_store)
  /\ fst (get_mnk_session 2 reserved_store) <> Raise ObjectNotFound.
Proof.
  apply (get_mnk_session_missing 2 reserved_store).
  intros s [<-|[]]; vm_compute; discriminate.
Defined.

(** ** Return *)

(** What [accept_end_mnk_session] does on a session it accepts. *)
Lemma accept_end_active (session_id : Z) (with_strike : bool) (reason : string)
  (user now_end now_return : Z) (db : Store) (s : mnkSession) :
  session_of session_id db = Some s ->
  s_status s = ACTIVE ->
  accept_end_mnk_session session_id with_strike reason user now_end now_return db
  = (Ok (setattrs (return_columns s user now_end now_return) s),
     if with_strike
     then after (create_strike (mkStrikePost (s_user_id s) user reason (s_id s)))
                (return_committed session_id s user now_end now_return db)
     else return_committed session_id s user now_end now_return db).
Proof.
  intros Hs Hst.
  unfold accept_end_mnk_session, bind, mnkSession_get, mnkSession_update.
  rewrite Hs, Hst. cbn [RentStatus_eqb negb]. rewrite Hs.
  destruct with_strike; reflexivity.
Qed.

Lemma accept_end_inactive (session_id : Z) (with_strike : bool) (reason : string)
  (user now_end now_return : Z) (db : Store) (s : mnkSession) :
  session_of session_id db = Some s ->
  s_status s <> ACTIVE ->
  accept_end_mnk_session session_id with_strike reason user now_end now_return db
  = (Raise InactiveSession, db).
Proof.
  intros Hs Hst. apply RentStatus_eqb_neq in Hst.
  unfold accept_end_mnk_session, bind, mnkSession_get.
  rewrite Hs, Hst. reflexivity.
Qed.

Lemma accept_end_missing (session_id : Z) (with_strike : bool) (reason : string)
  (user now_end now_return : Z) (db : Store) :
  session_of session_id db = None ->
  accept_end_mnk_session session_id with_strike reason user now_end now_return db
  = (Raise ObjectNotFound, db).
Proof.
  intros Hs. unfold accept_end_mnk_session, bind, mnkSession_get.
  rewrite Hs. reflexivity.
Qed.

Lemma session_of_return_committed (session_id : Z) (s : mnkSession)
  (user now_end now_return : Z) (db : Store) :
  session_of session_id db = Some s ->
  session_of session_id (return_committed session_id s user now_end now_return db)
  = Some (setattrs (return_columns s user now_end now_return) s).
Proof.
  intro Hs. unfold session_of, return_committed. cbn [sessions].
  rewrite find_update_same. unfold session_of in Hs. rewrite Hs. reflexivity.
Qed.

Lemma status_cases (a : RentStatus) : {a = ACTIVE} + {a <> ACTIVE}.
Proof. destruct a; (left; reflexivity) || (right; discriminate). Qed.

(** C3, as the specification states it, fails: a stored session whose status
    is OVERDUE is refused by Return with [InactiveSession], and nothing is
    written. *)
Lemma return_refuses_overdue :
  session_of 1 (store_with_status OVERDUE)
  = Some (mkSession 1 1 7 (Some 9) None 100 (Some 200) None None OVERDUE)
  /\ accept_end_mnk_session 1 false "" 9 300 301 (store_with_status OVERDUE)
     = (Raise InactiveSession, store_with_status OVERDUE).
Proof. split; reflexivity. Qed.

(** C3, amended: Return succeeds exactly when the session exists and its
    status is ACTIVE, and then the row it returns and stores has status
    RETURNED; it raises [InactiveSession] exactly when the session exists with
    any other status, OVERDUE included, and [ObjectNotFound] exactly when no
    session has the id. *)
Theorem return_exactly_from_active (session_id : Z) (with_strike : bool)
  (reason : string) (user now_end now_return : Z) (db : Store) :
  let run :=
    accept_end_mnk_session session_id with_strike reason user now_end now_return db in
  ((exists r, fst run = Ok r)
   <-> (exists s, session_of session_id db = Some s /\ s_status s = ACTIVE))
  /\ (fst run = Raise InactiveSession
      <-> (exists s, session_of session_id db = Some s /\ s_status s <> ACTIVE))
  /\ (fst run = Raise ObjectNotFound <-> session_of session_id db = None)
  /\ (forall r, fst run = Ok r ->
        s_status r = RETURNED /\ session_of session_id (snd run) = Some r).
Proof.
  intro run. subst run.
  destruct (session_of session_id db) as [s|] eqn:Hs.
  - destruct (status_cases (s_status s)) as [Hst|Hst].
    + rewrite (accept_end_active _ with_strike reason user now_end now_return _ _ Hs Hst).
      cbn [fst snd]. repeat split.
      * intros _. exists s. split; [reflexivity | exact Hst].
      * intros _. eexists. reflexivity.
      * intro H. discriminate H.
      * intros (s' & E & N). injection E as <-. contradiction.
      * intro H. discriminate H.
      * intro H. discriminate H.
      * injection H as <-. reflexivity.
      * injection H as <-.
        pose proof (session_of_return_committed session_id s user now_end now_return
                      db Hs) as Hc.
        destruct with_strike; exact Hc.
    + rewrite (accept_end_inactive _ with_strike reason user now_end now_return _ _ Hs Hst).
      cbn [fst snd]. repeat split.
      * intros (r & H). discriminate H.
      * intros (s' & E & A). injection E as <-. contradiction.
      * intros _. exists s. split; [reflexivity | exact Hst].
      * intro H. discriminate H.
      * intro H. discriminate H.
      * discriminate H.
      * discriminate H.
  - rewrite (accept_end_missing _ with_strike reason user now_end now_return _ Hs).
    cbn [fst snd]. repeat split.
    + intros (r & H). discriminate H.
    + intros (s' & E & _). discriminate E.
    + intro H. discriminate H.
    + intros (s' & E & _). discriminate E.
    + discriminate H.
    + discriminate H.
Qed.

(** C6: on every successful Return the row that is returned and stored keeps
    the [end_ts] the session already had, or takes the clock reading when it
    had none, and its [actual_return_ts] is the clock reading of the call. *)
Theorem return_timestamps (session_id : Z) (with_strike : bool) (reason : string)
  (user now_end now_return : Z) (db db' : Store) (s r : mnkSession) :
  session_of session_id db = Some s ->
  accept_end_mnk_session session_id with_strike reason user now_end now_return db
  = (Ok r, db') ->
  s_end_ts r = Some (match s_end_ts s with Some end_ts => end_ts | None => now_end end)
  /\ s_actual_return_ts r = Some now_return
  /\ session_of session_id db' = Some r.
Proof.
  intros Hs Hrun.
  destruct (status_cases (s_status s)) as [Hst|Hst].
  - rewrite (accept_end_active _ with_strike reason user now_end now_return _ _ Hs Hst)
      in Hrun.
    injection Hrun as <- <-. repeat split.
    + cbn. destruct (s_end_ts s); reflexivity.
    + pose proof (session_of_return_committed session_id s user now_end now_return
                    db Hs) as Hc.
      destruct with_strike; exact Hc.
  - rewrite (accept_end_inactive _ with_strike reason user now_end now_return _ _ Hs Hst)
      in Hrun.
    discriminate Hrun.
Qed.

Lemma return_timestamps_witness :
  exists s r db',
    session_of 1 active_store = Some s
    /\ accept_end_mnk_session 1 true "damaged" 9 300 301 active_store = (Ok r, db')
    /\ s_end_ts r = Some 300
    /\ s_actual_return_ts r = Some 301
    /\ session_of 1 db' = Some r.
Proof.
  do 3 eexists. split; [reflexivity|]. split; [reflexivity|].
  exact (return_timestamps 1 true "damaged" 9 300 301 active_store _ _ _
           eq_refl eq_refl).
Defined.

(** C8: a successful Return with [with_strike] set creates exactly one
    strike, on the store in which the session is already RETURNED, for the
    session's user, by the closing admin, with the given reason and the
    session's id; without [with_strike] the strikes are the ones there were. *)
Theorem return_strike (session_id : Z) (with_strike : bool) (reason : string)
  (user now_end now_return : Z) (db db' : Store) (s r : mnkSession) :
  session_of session_id db = Some s ->
  accept_end_mnk_session session_id with_strike reason user now_end now_return db
  = (Ok r, db') ->
  let strike := mkStrikePost (s_user_id s) user reason session_id in
  let committed := return_committed session_id s user now_end now_return db in
  session_of session_id committed = Some r
  /\ s_status r = RETURNED
  /\ strikes committed = strikes db
  /\ db' = (if with_strike then after (create_strike strike) committed else committed)
  /\ strikes db' = strikes db ++ (if with_strike then [strike] else []).
Proof.
  intros Hs Hrun strike committed. subst strike committed.
  assert (Hid : s_id s = session_id).
  { unfold session_of in Hs. now apply find_has_id in Hs. }
  destruct (status_cases (s_status s)) as [Hst|Hst].
  - rewrite (accept_end_active _ with_strike reason user now_end now_return _ _ Hs Hst)
      in Hrun.
    injection Hrun as <- <-. rewrite Hid. repeat split.
    + now apply session_of_return_committed.
    + destruct with_strike; [reflexivity|]. cbn. symmetry. apply app_nil_r.
  - rewrite (accept_end_inactive _ with_strike reason user now_end now_return _ _ Hs Hst)
      in Hrun.
    discriminate Hrun.
Qed.

Lemma return_strike_witness :
  exists s r db',
    session_of 1 active_store = Some s
    /\ accept_end_mnk_session 1 true "damaged" 9 300 301 active_store = (Ok r, db')
    /\ s_status r = RETURNED
    /\ strikes db' = [mkStrikePost 1 9 "damaged" 1].
Proof.
  do 3 eexists. split; [reflexivity|]. split; [reflexivity|].
  pose proof (return_strike 1 true "damaged" 9 300 301 active_store _ _ _
                eq_refl eq_refl) as H.
  cbv zeta in H. destruct H as (_ & H2 & _ & _ & H5).
  split; [exact H2 | exact H5].
Defined.

(** ** Expiry *)

Lemma find_item_update_same (id : Z) (b : bool) (l : list Item) :
  find (has_item_id id) (update_rows (has_item_id id) (set_available b) l)
  = option_map (set_available b) (find (has_item_id id) l).
Proof.
  induction l as [|a l IH]; simpl; [reflexivity|].
  destruct (has_item_id id a) eqn:E.
  - unfold has_item_id in *. cbn [set_available i_id]. rewrite E. reflexivity.
  - rewrite E. exact IH.
Qed.

(** What [check_session_expiration] does on a session that is still
    RESERVED and whose item is stored. *)
Lemma expiration_of_reserved (session_id : Z) (db : Store) (s : mnkSession) (it : Item) :
  session_pk db ->
  session_of session_id db = Some s ->
  s_status s = RESERVED ->
  item_of (s_item_id s) db = Some it ->
  check_session_expiration session_id db = (Ok tt, expired s db).
Proof.
  intros PK Hs Hst Hit.
  assert (Hid : s_id s = session_id) by (now apply find_has_id in Hs).
  unfold check_session_expiration, bind, mnkSession_query.
  rewrite (filter_by_pk session_id (sessions db) s PK Hs).
  cbn [one_or_none ret]. rewrite Hst. cbn [RentStatus_eqb].
  unfold mnkSession_update. rewrite Hs.
  unfold Item_update, item_of. cbn [items]. unfold item_of in Hit. rewrite Hit.
  unfold expired, log_event. cbn. rewrite Hid. reflexivity.
Qed.

(** The expiry of a session that is not RESERVED, or of an id without a
    session, writes nothing. *)
Lemma expiration_of_other (session_id : Z) (db : Store) :
  session_pk db ->
  (forall s, session_of session_id db = Some s -> s_status s <> RESERVED) ->
  check_session_expiration session_id db = (Ok tt, db).
Proof.
  intros PK H. unfold check_session_expiration, bind, mnkSession_query.
  destruct (session_of session_id db) as [s|] eqn:Hs.
  - rewrite (filter_by_pk session_id (sessions db) s PK Hs).
    cbn [one_or_none ret]. specialize (H s eq_refl).
    apply RentStatus_eqb_neq in H. rewrite H. reflexivity.
  - rewrite (find_filter_nil _ _ Hs). reflexivity.
Qed.

Lemma session_of_expired (db : Store) (s : mnkSession) :
  session_of (s_id s) db = Some s ->
  session_of (s_id s) (expired s db) = Some (setattrs expire_columns s).
Proof.
  intro Hs. unfold session_of, expired. cbn [sessions].
  rewrite find_update_same. unfold session_of in Hs. rewrite Hs. reflexivity.
Qed.

Lemma item_of_expired (db : Store) (s : mnkSession) (it : Item) :
  item_of (s_item_id s) db = Some it ->
  item_of (s_item_id s) (expired s db) = Some (set_available true it).
Proof.
  intro Hit. unfold item_of, expired. cbn [items].
  rewrite find_item_update_same. unfold item_of in Hit. rewrite Hit. reflexivity.
Qed.

(** C7: under the primary key of the sessions, the expiry check of a session
    that is still RESERVED (its item stored) ends with that session CANCELED
    and its item available again; for a session that has left RESERVED, or an
    id without a session, it returns normally and the store is the one it was
    given. *)
Theorem expire_if_unclaimed (session_id : Z) (db : Store) :
  session_pk db ->
  (forall s it,
      session_of session_id db = Some s ->
      s_status s = RESERVED ->
      item_of (s_item_id s) db = Some it ->
      fst (check_session_expiration session_id db) = Ok tt
      /\ (exists s', session_of session_id (after (check_session_expiration session_id) db)
                     = Some s'
                     /\ s_status s' = CANCELED)
      /\ (exists it', item_of (s_item_id s) (after (check_session_expiration session_id) db)
                      = Some it'
                      /\ i_is_available it' = true))
  /\ ((forall s, session_of session_id db = Some s -> s_status s <> RESERVED) ->
      check_session_expiration session_id db = (Ok tt, db)).
Proof.
  intro PK. split.
  - intros s it Hs Hst Hit.
    assert (Hid : s_id s = session_id) by (now apply find_has_id in Hs).
    unfold after. rewrite (expiration_of_reserved session_id db s it PK Hs Hst Hit).
    cbn [fst snd]. split; [reflexivity|]. split.
    + exists (setattrs expire_columns s). split; [|reflexivity].
      rewrite <- Hid. apply session_of_expired. now rewrite Hid.
    + exists (set_available true it). split; [|reflexivity].
      now apply item_of_expired.
  - now apply expiration_of_other.
Qed.

Lemma reserved_store_pk : session_pk reserved_store.
Proof. unfold session_pk. cbn. constructor; [intros []|constructor]. Qed.

Lemma expire_if_unclaimed_witness :
  fst (check_session_expiration 1 reserved_store) = Ok tt
  /\ (exists s', session_of 1 (after (check_session_expiration 1) reserved_store) = Some s'
                 /\ s_status s' = CANCELED)
  /\ (exists it', item_of 7 (after (check_session_expiration 1) reserved_store) = Some it'
                  /\ i_is_available it' = true).
Proof.
  exact (proj1 (expire_if_unclaimed 1 reserved_store reserved_store_pk)
           (mkSession 1 1 7 None None 100 None None None RESERVED)
           (mkItem 7 1 false) eq_refl eq_refl eq_refl).
Defined.

(** ** Start *)

Lemma start_found (session_id user now : Z) (db : Store) (s : mnkSession) :
  session_of session_id db = Some s ->
  start_mnk_session session_id user now db
  = (Ok (setattrs (start_columns user now) s), started s user now db).
Proof.
  intro Hs.
  assert (Hid : s_id s = session_id) by (now apply find_has_id in Hs).
  unfold start_mnk_session, bind, mnkSession_get, mnkSession_update.
  rewrite Hs. cbn [fst snd]. rewrite Hs. unfold started. rewrite Hid. reflexivity.
Qed.

Lemma start_missing (session_id user now : Z) (db : Store) :
  session_of session_id db = None ->
  start_mnk_session session_id user now db = (Raise ObjectNotFound, db).
Proof.
  intro Hs. unfold start_mnk_session, bind, mnkSession_get. rewrite Hs. reflexivity.
Qed.

Lemma session_of_started (db : Store) (s : mnkSession) (user now : Z) :
  session_of (s_id s) db = Some s ->
  session_of (s_id s) (started s user now db)
  = Some (setattrs (start_columns user now) s).
Proof.
  intro Hs. unfold session_of, started. cbn [sessions].
  rewrite find_update_same. unfold session_of in Hs. rewrite Hs. reflexivity.
Qed.

(** C2, at the failing input: Start of a stored session whose status is
    CANCELED, a terminal status, is not refused: it returns normally, and the
    session it returns and stores is ACTIVE. *)
Lemma start_accepts_canceled :
  (exists s, session_of 1 (store_with_status CANCELED) = Some s
             /\ s_status s = CANCELED)
  /\ (exists r db',
        start_mnk_session 1 9 400 (store_with_status CANCELED) = (Ok r, db')
        /\ s_status r = ACTIVE
        /\ session_of 1 db' = Some r).
Proof.
  split.
  - eexists. split; reflexivity.
  - do 2 eexists. repeat split.
Qed.

(** ** Create on an available item *)

Lemma find_present {A : Type} (p : A -> bool) (l : list A) (x : A) :
  In x l -> p x = true -> exists y, find p l = Some y.
Proof.
  intros Hin Hp. destruct (find p l) as [y|] eqn:E; [now exists y|].
  rewrite (find_none p l E x Hin) in Hp. discriminate Hp.
Qed.

Lemma find_app_left {A : Type} (p : A -> bool) (l l' : list A) (x : A) :
  find p l = Some x -> find p (l ++ l') = Some x.
Proof.
  induction l as [|a l IH]; simpl; intro H; [discriminate H|].
  destruct (p a); [exact H | now apply IH].
Qed.

Lemma create_available (item_type_id user now : Z) (db : Store)
  (first : Item) (rest : list Item) :
  filter (available_of_type item_type_id) (items db) = first :: rest ->
  create_mnk_session item_type_id user now db
  = (Ok (new_session first user now db), created first user now db).
Proof.
  intro Hf.
  assert (Hin : In first (items db)).
  { apply (proj1 (filter_In (available_of_type item_type_id) first (items db))).
    rewrite Hf. now left. }
  destruct (find_present (has_item_id (i_id first)) (items db) first Hin
              (Z.eqb_refl _)) as [y Hy].
  unfold create_mnk_session, bind, Item_query.
  change (fun it : Item => (i_type_id it =? item_type_id)
                           && Bool.eqb (i_is_available it) true)
    with (available_of_type item_type_id).
  rewrite Hf. unfold mnkSession_create, Item_update, item_of. cbn [items].
  rewrite Hy. reflexivity.
Qed.

Lemma create_unavailable (item_type_id user now : Z) (db : Store) :
  filter (available_of_type item_type_id) (items db) = [] ->
  create_mnk_session item_type_id user now db = (Raise NoneAvailable, db).
Proof.
  intro Hf. unfold create_mnk_session, bind, Item_query.
  change (fun it : Item => (i_type_id it =? item_type_id)
                           && Bool.eqb (i_is_available it) true)
    with (available_of_type item_type_id).
  rewrite Hf. reflexivity.
Qed.

(** ** The transitions the operations take *)

Lemma taken_edge_is_edge (a b : RentStatus) : taken_edge a b = true -> edge a b = true.
Proof. destruct a, b; simpl; intro H; try reflexivity; discriminate H. Qed.

(** The row of [id] after the columns [c] are written to the row of [id']. *)
Lemma find_update_rows (id id' : Z) (c : Columns) (l : list mnkSession)
  (s : mnkSession) :
  find (has_session_id id) l = Some s ->
  find (has_session_id id) (update_rows (has_session_id id') (setattrs c) l)
  = Some (if id' =? id then setattrs c s else s).
Proof.
  intro Hs. destruct (id' =? id) eqn:E.
  - apply Z.eqb_eq in E. subst id'. rewrite find_update_same, Hs. reflexivity.
  - apply Z.eqb_neq in E. rewrite find_update_other by congruence. exact Hs.
Qed.

(** The sessions once the expiry check of a RESERVED session has run,
    whether or not the item is stored. *)
Lemma sessions_after_expiration (session_id : Z) (db : Store) (s : mnkSession) :
  session_pk db ->
  session_of session_id db = Some s ->
  s_status s = RESERVED ->
  sessions (after (check_session_expiration session_id) db)
  = update_rows (has_session_id session_id) (setattrs expire_columns) (sessions db).
Proof.
  intros PK Hs Hst.
  unfold after, check_session_expiration, bind, mnkSession_query.
  rewrite (filter_by_pk session_id (sessions db) s PK Hs).
  cbn [one_or_none ret]. rewrite Hst. cbn [RentStatus_eqb].
  unfold mnkSession_update. rewrite Hs.
  unfold Item_update, item_of. cbn [items].
  destruct (find (has_item_id (s_item_id s)) (items db)); reflexivity.
Qed.

Lemma moved_refl (a : RentStatus) : moved a a.
Proof. now left. Qed.

(** What the operations do keep of the state diagram: under the sessions'
    primary key, whatever Create, Start, Return or ExpireIfUnclaimed is
    performed, a stored session stays stored and its status either stays or
    moves along RESERVED to ACTIVE, RESERVED to CANCELED or ACTIVE to
    RETURNED, as long as the operation is not a Start of that very session
    from a status other than RESERVED; and a request that raises raises
    [NoneAvailable], [ObjectNotFound] or [InactiveSession] and leaves the
    store as it was. *)
Theorem guided_transitions (op : Operation) (db : Store) (session_id : Z)
  (s : mnkSession) :
  session_pk db ->
  session_of session_id db = Some s ->
  (starts op session_id = true -> s_status s = RESERVED) ->
  (exists s', session_of session_id (after (perform op) db) = Some s'
              /\ moved (s_status s) (s_status s'))
  /\ (is_request op = true ->
      forall e, fst (perform op db) = Raise e ->
                after (perform op) db = db
                /\ (e = NoneAvailable \/ e = ObjectNotFound \/ e = InactiveSession)).
Proof.
  intros PK Hs Hstart.
  destruct op as [ty user now | id user now | id ws reason user t1 t2 | id];
    unfold after; cbn [perform is_request starts] in *; unfold discard, bind.
  - (* Create *)
    destruct (filter (available_of_type ty) (items db)) as [|first rest] eqn:Hf.
    + rewrite (create_unavailable ty user now db Hf). cbv beta iota; cbn [fst snd ret]. split.
      * exists s. split; [exact Hs | apply moved_refl].
      * refused.
    + rewrite (create_available ty user now db first rest Hf). cbv beta iota; cbn [fst snd ret]. split.
      * exists s. split; [|apply moved_refl].
        unfold session_of, created. cbn [sessions]. now apply find_app_left.
      * intros _ e He. discriminate He.
  - (* Start *)
    destruct (session_of id db) as [s2|] eqn:Hs2.
    + rewrite (start_found id user now db s2 Hs2). cbv beta iota; cbn [fst snd ret]. split.
      * assert (Hid2 : s_id s2 = id) by (now apply find_has_id in Hs2).
        unfold session_of, started. cbn [sessions]. rewrite Hid2.
        rewrite (find_update_rows session_id id _ (sessions db) s Hs).
        eexists. split; [reflexivity|].
        destruct (id =? session_id) eqn:E; [|apply moved_refl].
        right. cbn. rewrite (Hstart eq_refl). reflexivity.
      * intros _ e He. discriminate He.
    + rewrite (start_missing id user now db Hs2). cbv beta iota; cbn [fst snd ret]. split.
      * exists s. split; [exact Hs | apply moved_refl].
      * refused.
  - (* Return *)
    destruct (session_of id db) as [s2|] eqn:Hs2.
    + destruct (status_cases (s_status s2)) as [Hst|Hst].
      * rewrite (accept_end_active id ws reason user t1 t2 db s2 Hs2 Hst).
        cbv beta iota; cbn [fst snd ret]. split.
        -- assert (E : session_of session_id
                         (if ws
                          then after (create_strike
                                        (mkStrikePost (s_user_id s2) user reason (s_id s2)))
                                     (return_committed id s2 user t1 t2 db)
                          else return_committed id s2 user t1 t2 db)
                       = Some (if id =? session_id
                               then setattrs (return_columns s2 user t1 t2) s
                               else s)).
           { destruct ws; unfold session_of, after, create_strike, return_committed;
               cbn [sessions snd];
               apply (find_update_rows session_id id _ (sessions db) s Hs). }
           rewrite E. eexists. split; [reflexivity|].
           destruct (id =? session_id) eqn:Eid; [|apply moved_refl].
           apply Z.eqb_eq in Eid. subst id.
           rewrite Hs in Hs2. injection Hs2 as <-.
           right. cbn. rewrite Hst. reflexivity.
        -- intros _ e He. discriminate He.
      * rewrite (accept_end_inactive id ws reason user t1 t2 db s2 Hs2 Hst).
        cbv beta iota; cbn [fst snd ret]. split.
        -- exists s. split; [exact Hs | apply moved_refl].
        -- refused.
    + rewrite (accept_end_missing id ws reason user t1 t2 db Hs2). cbv beta iota; cbn [fst snd ret]. split.
      * exists s. split; [exact Hs | apply moved_refl].
      * refused.
  - (* ExpireIfUnclaimed *)
    split; [|intro F; discriminate F].
    destruct (session_of id db) as [s2|] eqn:Hs2.
    + destruct (RentStatus_eqb (s_status s2) RESERVED) eqn:Hst.
      * apply RentStatus_eqb_eq in Hst.
        pose proof (sessions_after_expiration id db s2 PK Hs2 Hst) as Hss.
        unfold after in Hss. unfold session_of at 1. rewrite Hss.
        rewrite (find_update_rows session_id id _ (sessions db) s Hs).
        eexists. split; [reflexivity|].
        destruct (id =? session_id) eqn:Eid; [|apply moved_refl].
        apply Z.eqb_eq in Eid. subst id.
        rewrite Hs in Hs2. injection Hs2 as <-.
        right. cbn. rewrite Hst. reflexivity.
      * apply RentStatus_eqb_neq in Hst.
        rewrite (expiration_of_other id db PK).
        -- exists s. split; [exact Hs | apply moved_refl].
        -- intros s3 E3. rewrite Hs2 in E3. injection E3 as <-. exact Hst.
    + rewrite (expiration_of_other id db PK).
      * exists s. split; [exact Hs | apply moved_refl].
      * intros s3 E3. rewrite Hs2 in E3. discriminate E3.
Qed.

Lemma guided_transitions_witness :
  exists s', session_of 1 (after (perform (Start 1 9 200)) reserved_store) = Some s'
             /\ moved RESERVED (s_status s').
Proof.
  exact (proj1 (guided_transitions (Start 1 9 200) reserved_store 1
                  (mkSession 1 1 7 None None 100 None None None RESERVED)
                  reserved_store_pk eq_refl (fun _ => eq_refl))).
Defined.

(** ** The availability invariant along a rental *)

(** C1, at the failing input: from one free item, Create, Start and Return
    each succeed; the invariant holds up to the Start, and after the Return
    the session is RETURNED, no session holds item 7, and the item is still
    unavailable: the invariant is broken. *)
Theorem return_keeps_item_unavailable :
  availability_invariant one_free_item = true
  /\ availability_invariant reserved_store = true
  /\ availability_invariant active_store = true
  /\ (exists r, accept_end_mnk_session 1 false "" 9 300 301 active_store
                = (Ok r, returned_store)
                /\ s_status r = RETURNED)
  /\ option_map s_status (session_of 1 returned_store) = Some RETURNED
  /\ held 7 returned_store = false
  /\ option_map i_is_available (item_of 7 returned_store) = Some false
  /\ availability_invariant returned_store = false.
Proof.
  repeat split; try reflexivity.
  eexists. split; reflexivity.
Qed.

(** ** Start against the expiry check *)

Lemma update_rows_ids (id : Z) (c : Columns) (l : list mnkSession) :
  map s_id (update_rows (has_session_id id) (setattrs c) l) = map s_id l.
Proof.
  induction l as [|a l IH]; simpl; [reflexivity|].
  rewrite IH. destruct (has_session_id id a); reflexivity.
Qed.

Lemma started_pk (s : mnkSession) (user now : Z) (db : Store) :
  session_pk db -> session_pk (started s user now db).
Proof.
  unfold session_pk, started. cbn [sessions]. now rewrite update_rows_ids.
Qed.

(** X15: when the Start of a RESERVED session runs before its expiry
    check, the Start wins: the session is returned and stored ACTIVE, and the
    check that follows returns normally and writes nothing. *)
Lemma start_first_wins (session_id user now : Z) (db : Store) (s : mnkSession) :
  session_pk db ->
  session_of session_id db = Some s ->
  s_status s = RESERVED ->
  race StartFirst session_id user now db
  = (Ok (setattrs (start_columns user now) s), Ok tt, started s user now db).
Proof.
  intros PK Hs Hst.
  assert (Hid : s_id s = session_id) by (now apply find_has_id in Hs).
  unfold race. rewrite (start_found session_id user now db s Hs).
  rewrite (expiration_of_other session_id (started s user now db)); [reflexivity | |].
  - now apply started_pk.
  - intros s' Hs'. rewrite <- Hid in Hs'.
    rewrite session_of_started in Hs' by (now rewrite Hid).
    injection Hs' as <-. discriminate.
Qed.

(** X19: when the expiry check of a RESERVED session runs before the
    Start, it cancels the session and releases the item, and the Start that
    follows is accepted all the same: the session ends ACTIVE on an item that
    is marked available. *)
Lemma expiry_first_then_start (session_id user now : Z) (db : Store)
  (s : mnkSession) (it : Item) :
  session_pk db ->
  session_of session_id db = Some s ->
  s_status s = RESERVED ->
  item_of (s_item_id s) db = Some it ->
  exists r db',
    race ExpireFirst session_id user now db = (Ok r, Ok tt, db')
    /\ s_status r = ACTIVE
    /\ session_of session_id db' = Some r
    /\ item_of (s_item_id s) db' = Some (set_available true it).
Proof.
  intros PK Hs Hst Hit.
  assert (Hid : s_id s = session_id) by (now apply find_has_id in Hs).
  unfold race. rewrite (expiration_of_reserved session_id db s it PK Hs Hst Hit).
  assert (Hs' : session_of session_id (expired s db) = Some (setattrs expire_columns s)).
  { rewrite <- Hid. apply session_of_expired. now rewrite Hid. }
  rewrite (start_found session_id user now (expired s db) _ Hs').
  do 2 eexists. split; [reflexivity|]. split; [reflexivity|]. split.
  - unfold session_of, started. cbn [sessions]. rewrite setattrs_id, Hid.
    rewrite find_update_same. unfold session_of in Hs'. rewrite Hs'. reflexivity.
  - unfold item_of, started. cbn [items]. now apply item_of_expired.
Qed.

(** C4, at the failing input: on the session just reserved, the expiry check
    run first cancels it and releases item 7, and the Start run after it is
    accepted; both took effect, and the session ends ACTIVE while its item is
    marked available. *)
Theorem expiry_and_start_both_take_effect :
  option_map s_status (session_of 1 reserved_store) = Some RESERVED
  /\ check_session_expiration 1 reserved_store
     = (Ok tt, expired (mkSession 1 1 7 None None 100 None None None RESERVED)
                       reserved_store)
  /\ option_map s_status
       (session_of 1 (after (check_session_expiration 1) reserved_store))
     = Some CANCELED
  /\ option_map i_is_available
       (item_of 7 (after (check_session_expiration 1) reserved_store))
     = Some true
  /\ (exists r db',
        race ExpireFirst 1 9 200 reserved_store = (Ok r, Ok tt, db')
        /\ s_status r = ACTIVE
        /\ option_map s_status (session_of 1 db') = Some ACTIVE
        /\ option_map i_is_available (item_of 7 db') = Some true
        /\ availability_invariant db' = false).
Proof.
  repeat split; try reflexivity.
  do 2 eexists. repeat split.
Qed.

(** ** Which operations keep the store consistent *)

Section RowUpdates.
Context {A : Type} (p : A -> bool) (f : A -> A).

Lemma update_rows_absent (l : list A) :
  (forall x, In x l -> p x = false) -> update_rows p f l = l.
Proof.
  induction l as [|a l IH]; simpl; intro H; [reflexivity|].
  rewrite (H a (or_introl eq_refl)). f_equal. apply IH.
  intros x Hx. apply H. now right.
Qed.

Lemma in_update_rows (l : list A) (y : A) :
  In y (update_rows p f l)
  <-> exists x, In x l /\ y = (if p x then f x else x).
Proof.
  unfold update_rows. rewrite in_map_iff. split.
  - intros (x & E & Hx). exists x. split; [exact Hx | now symmetry].
  - intros (x & Hx & E). exists x. split; [now symmetry | exact Hx].
Qed.
End RowUpdates.

Lemma existsb_count {A : Type} (q : A -> bool) (l : list A) :
  existsb q l = (0 <? List.length (filter q l))%nat.
Proof.
  induction l as [|a l IH]; simpl; [reflexivity|].
  destruct (q a); simpl; [reflexivity | exact IH].
Qed.

Lemma held_holders (item_id : Z) (db : Store) :
  held item_id db = (0 <? holders item_id db)%nat.
Proof. apply existsb_count. Qed.

(** Under the primary key no other row has the id of the row [get] finds. *)
Lemma pk_rest_absent (id : Z) (a : mnkSession) (l : list mnkSession) :
  NoDup (map s_id (a :: l)) -> has_session_id id a = true ->
  forall x, In x l -> has_session_id id x = false.
Proof.
  intros ND Ha x Hx. inversion ND as [|y ys Hnotin _ E]; subst.
  unfold has_session_id in *. apply Z.eqb_eq in Ha. apply Z.eqb_neq.
  intro Ex. apply Hnotin. rewrite Ha, <- Ex. now apply in_map.
Qed.

(** Writing the one row of a given id changes the number of rows that
    satisfy [q] by what that row contributes. *)
Lemma count_update_row (q : mnkSession -> bool) (id : Z) (c : Columns)
  (l : list mnkSession) (s : mnkSession) :
  NoDup (map s_id l) ->
  find (has_session_id id) l = Some s ->
  (List.length (filter q (update_rows (has_session_id id) (setattrs c) l))
   + one_if (q s)
   = List.length (filter q l) + one_if (q (setattrs c s)))%nat.
Proof.
  induction l as [|a l IH]; intros ND H; [discriminate H|].
  cbn [find] in H. cbn [update_rows map].
  destruct (has_session_id id a) eqn:E.
  - injection H as <-.
    fold (update_rows (has_session_id id) (setattrs c) l).
    rewrite (update_rows_absent _ _ l (pk_rest_absent id a l ND E)).
    cbn [filter]. destruct (q a), (q (setattrs c a)); cbn [List.length one_if]; lia.
  - fold (update_rows (has_session_id id) (setattrs c) l).
    inversion ND as [|y ys _ ND' Ey]; subst.
    specialize (IH ND' H). cbn [filter].
    destruct (q a); cbn [List.length]; lia.
Qed.

Lemma availability_spec (db : Store) :
  availability_invariant db = true
  <-> forall it, In it (items db) -> i_is_available it = negb (held (i_id it) db).
Proof.
  unfold availability_invariant. rewrite forallb_forall.
  split; intros H it Hin; specialize (H it Hin).
  - apply Bool.eqb_prop in H. rewrite <- H. now rewrite negb_involutive.
  - rewrite H, negb_involutive. apply Bool.eqb_reflx.
Qed.

Lemma not_held_no_holder (item_id : Z) (db : Store) :
  held item_id db = false -> holders item_id db = 0%nat.
Proof.
  rewrite held_holders. intro H. apply Nat.ltb_ge in H. lia.
Qed.

Lemma fresh_id_above (l : list mnkSession) (x : Z) :
  In x (map s_id l) -> x < fresh_id l.
Proof.
  unfold fresh_id. induction l as [|a l IH]; cbn [map fold_right In]; [intros []|].
  intros [<-|Hx]; [lia|]. specialize (IH Hx). lia.
Qed.

Lemma NoDup_snoc {A : Type} (l : list A) (x : A) :
  NoDup l -> ~ In x l -> NoDup (l ++ [x]).
Proof.
  induction l as [|a l IH]; simpl; intros ND Hx.
  - constructor; [intros []|constructor].
  - inversion ND as [|y ys Hnotin ND' E]; subst. constructor.
    + rewrite in_app_iff. intros [Ha|[Ha|[]]]; [contradiction|].
      apply Hx. now left.
    + apply IH; [exact ND'|]. intro H. apply Hx. now right.
Qed.

Lemma holders_created (item_id : Z) (first : Item) (user now : Z) (db : Store) :
  holders item_id (created first user now db)
  = (holders item_id db + one_if (i_id first =? item_id)%Z)%nat.
Proof.
  unfold holders, created. cbn [sessions]. rewrite filter_app, length_app.
  f_equal. cbn [filter]. unfold holds at 1, new_session. cbn [s_item_id s_status non_terminal].
  rewrite andb_true_r. destruct (i_id first =? item_id); reflexivity.
Qed.

(** Create keeps a consistent store consistent. *)
Theorem create_consistent (item_type_id user now : Z) (db : Store) :
  consistent db ->
  consistent (after (create_mnk_session item_type_id user now) db).
Proof.
  intros (Hav & H1 & PK). unfold after.
  destruct (filter (available_of_type item_type_id) (items db)) as [|first rest] eqn:Hf.
  - rewrite (create_unavailable item_type_id user now db Hf). now repeat split.
  - rewrite (create_available item_type_id user now db first rest Hf). cbn [snd].
    assert (Hfirst : In first (items db) /\ available_of_type item_type_id first = true).
    { apply filter_In. rewrite Hf. now left. }
    destruct Hfirst as [Hin Hty].
    assert (Hfree : holders (i_id first) db = 0%nat).
    { apply not_held_no_holder.
      pose proof (proj1 (availability_spec db) Hav first Hin) as E.
      unfold available_of_type in Hty. apply andb_prop in Hty. destruct Hty as [_ Ha].
      apply Bool.eqb_prop in Ha. rewrite Ha in E.
      destruct (held (i_id first) db); [discriminate E | reflexivity]. }
    split; [|split].
    + apply availability_spec. intros it' Hit'.
      unfold created in Hit'. cbn [items] in Hit'.
      apply in_update_rows in Hit'. destruct Hit' as (it & Hit & ->).
      rewrite held_holders.
      destruct (has_item_id (i_id first) it) eqn:E.
      * cbn [set_available i_id i_is_available]. unfold has_item_id in E.
        apply Z.eqb_eq in E. rewrite holders_created, E, Hfree, Z.eqb_refl.
        reflexivity.
      * rewrite holders_created. unfold has_item_id in E.
        rewrite Z.eqb_sym, E. cbn [one_if]. rewrite Nat.add_0_r, <- held_holders.
        exact (proj1 (availability_spec db) Hav it Hit).
    + intro id. rewrite holders_created.
      destruct (i_id first =? id) eqn:E; cbn [one_if].
      * apply Z.eqb_eq in E. subst id. rewrite Hfree. lia.
      * rewrite Nat.add_0_r. apply H1.
    + unfold session_pk, created. cbn [sessions]. rewrite map_app. cbn [map].
      apply NoDup_snoc; [exact PK|]. cbn [new_session s_id].
      intro H. apply fresh_id_above in H. lia.
Qed.

(** The holders of an item once the columns [c] are written to session
    [s]. *)
Lemma holders_written (item_id id : Z) (c : Columns) (db db' : Store)
  (s : mnkSession) :
  session_pk db ->
  session_of id db = Some s ->
  sessions db' = update_rows (has_session_id id) (setattrs c) (sessions db) ->
  (holders item_id db' + one_if (holds item_id s)
   = holders item_id db + one_if (holds item_id (setattrs c s)))%nat.
Proof.
  intros PK Hs E. unfold holders. rewrite E.
  now apply count_update_row.
Qed.

Lemma written_pk (id : Z) (c : Columns) (db db' : Store) :
  session_pk db ->
  sessions db' = update_rows (has_session_id id) (setattrs c) (sessions db) ->
  session_pk db'.
Proof.
  unfold session_pk. intros PK E. now rewrite E, update_rows_ids.
Qed.

(** Start of a session that is RESERVED, ACTIVE or OVERDUE keeps a
    consistent store consistent. *)
Theorem start_consistent (session_id user now : Z) (db : Store) (s : mnkSession) :
  consistent db ->
  session_of session_id db = Some s ->
  non_terminal (s_status s) = true ->
  consistent (after (start_mnk_session session_id user now) db).
Proof.
  intros (Hav & H1 & PK) Hs Hnt. unfold after.
  assert (Hid : s_id s = session_id) by (now apply find_has_id in Hs).
  rewrite (start_found session_id user now db s Hs). cbn [snd].
  assert (Hss : sessions (started s user now db)
                = update_rows (has_session_id session_id)
                    (setattrs (start_columns user now)) (sessions db)).
  { unfold started. cbn [sessions]. now rewrite Hid. }
  assert (Hsame : forall id, holders id (started s user now db) = holders id db).
  { intro id.
    pose proof (holders_written id session_id (start_columns user now) db
                  (started s user now db) s PK Hs Hss) as E.
    assert (Eh : holds id (setattrs (start_columns user now) s) = holds id s).
    { unfold holds. cbn [setattrs s_item_id s_status written start_columns c_status
                          non_terminal]. now rewrite Hnt. }
    rewrite Eh in E. lia. }
  split; [|split].
  - apply availability_spec. intros it Hit. rewrite held_holders, Hsame, <- held_holders.
    exact (proj1 (availability_spec db) Hav it Hit).
  - intro id. rewrite Hsame. apply H1.
  - exact (written_pk session_id _ db _ PK Hss).
Qed.

(** The items once the expiry check of a RESERVED session has run. *)
Lemma items_after_expiration (session_id : Z) (db : Store) (s : mnkSession) :
  session_pk db ->
  session_of session_id db = Some s ->
  s_status s = RESERVED ->
  items (after (check_session_expiration session_id) db)
  = update_rows (has_item_id (s_item_id s)) (set_available true) (items db).
Proof.
  intros PK Hs Hst.
  unfold after, check_session_expiration, bind, mnkSession_query.
  rewrite (filter_by_pk session_id (sessions db) s PK Hs).
  cbn [one_or_none ret]. rewrite Hst. cbn [RentStatus_eqb].
  unfold mnkSession_update. rewrite Hs.
  unfold Item_update, item_of. cbn [items].
  destruct (find (has_item_id (s_item_id s)) (items db)) eqn:E; [reflexivity|].
  cbn [snd items]. symmetry. apply update_rows_absent.
  exact (find_none _ _ E).
Qed.

(** What is left of the holders of an item when session [s], which holds
    its item, is written into a terminal status. *)
Lemma holders_released (item_id id : Z) (c : Columns) (db db' : Store)
  (s : mnkSession) :
  one_holder db ->
  session_pk db ->
  session_of id db = Some s ->
  non_terminal (s_status s) = true ->
  non_terminal (s_status (setattrs c s)) = false ->
  sessions db' = update_rows (has_session_id id) (setattrs c) (sessions db) ->
  holders item_id db'
  = (if s_item_id s =? item_id then 0%nat else holders item_id db).
Proof.
  intros H1 PK Hs Hnt Hter E.
  pose proof (holders_written item_id id c db db' s PK Hs E) as Hw.
  unfold holds in Hw. rewrite setattrs_item_id, Hnt, Hter in Hw.
  rewrite andb_true_r, andb_false_r in Hw. cbn [one_if] in Hw.
  specialize (H1 item_id).
  destruct (s_item_id s =? item_id); cbn [one_if] in Hw; lia.
Qed.

(** The expiry check keeps a consistent store consistent. *)
Theorem expire_consistent (session_id : Z) (db : Store) :
  consistent db ->
  consistent (after (check_session_expiration session_id) db).
Proof.
  intros (Hav & H1 & PK).
  destruct (session_of session_id db) as [s|] eqn:Hs.
  2:{ unfold after. rewrite (expiration_of_other session_id db PK); [now repeat split|].
      intros s' E. rewrite Hs in E. discriminate E. }
  destruct (RentStatus_eqb (s_status s) RESERVED) eqn:Hst.
  2:{ apply RentStatus_eqb_neq in Hst.
      unfold after. rewrite (expiration_of_other session_id db PK); [now repeat split|].
      intros s' E. rewrite Hs in E. injection E as <-. exact Hst. }
  apply RentStatus_eqb_eq in Hst.
  pose proof (sessions_after_expiration session_id db s PK Hs Hst) as Hss.
  pose proof (items_after_expiration session_id db s PK Hs Hst) as Hit.
  assert (Hnt : non_terminal (s_status s) = true) by (now rewrite Hst).
  assert (Hh : forall id,
             holders id (after (check_session_expiration session_id) db)
             = (if s_item_id s =? id then 0%nat else holders id db)).
  { intro id.
    exact (holders_released id session_id expire_columns db _ s H1 PK Hs Hnt
             eq_refl Hss). }
  split; [|split].
  - apply availability_spec. intros it' Hit'. rewrite Hit in Hit'.
    apply in_update_rows in Hit'. destruct Hit' as (it & Hin & ->).
    rewrite held_holders, Hh.
    destruct (has_item_id (s_item_id s) it) eqn:E; unfold has_item_id in E.
    + cbn [set_available i_id i_is_available]. rewrite Z.eqb_sym, E. reflexivity.
    + rewrite Z.eqb_sym, E, <- held_holders.
      exact (proj1 (availability_spec db) Hav it Hin).
  - intro id. rewrite Hh. destruct (s_item_id s =? id); [lia | apply H1].
  - exact (written_pk session_id _ db _ PK Hss).
Qed.

(** X18: Return breaks the availability invariant of every consistent store
    in which it succeeds on a session whose item is stored: the item stays
    unavailable and nothing holds it any more. *)
Theorem return_breaks_availability (session_id : Z) (with_strike : bool)
  (reason : string) (user now_end now_return : Z) (db : Store)
  (s : mnkSession) (it : Item) :
  consistent db ->
  session_of session_id db = Some s ->
  s_status s = ACTIVE ->
  item_of (s_item_id s) db = Some it ->
  let db' := after (accept_end_mnk_session session_id with_strike reason user
                                           now_end now_return) db in
  item_of (s_item_id s) db' = Some it
  /\ i_is_available it = false
  /\ held (s_item_id s) db' = false
  /\ availability_invariant db' = false.
Proof.
  intros (Hav & H1 & PK) Hs Hst Hit db'. subst db'. unfold after.
  rewrite (accept_end_active session_id with_strike reason user now_end now_return
             db s Hs Hst). cbn [snd].
  set (db' := if with_strike then _ else _).
  assert (Hitems : items db' = items db) by (subst db'; now destruct with_strike).
  assert (Hss : sessions db'
                = update_rows (has_session_id session_id)
                    (setattrs (return_columns s user now_end now_return))
                    (sessions db)) by (subst db'; now destruct with_strike).
  assert (Hnt : non_terminal (s_status s) = true) by (now rewrite Hst).
  pose proof (holders_released (s_item_id s) session_id
                (return_columns s user now_end now_return) db db' s H1 PK Hs Hnt
                eq_refl Hss) as Hh.
  rewrite Z.eqb_refl in Hh.
  assert (Hheld' : held (s_item_id s) db' = false) by (now rewrite held_holders, Hh).
  pose proof (holders_written (s_item_id s) session_id _ db db' s PK Hs Hss) as Hw.
  unfold holds in Hw. rewrite setattrs_item_id, Z.eqb_refl, Hnt, Hh in Hw.
  cbn [andb one_if non_terminal s_status setattrs written return_columns c_status]
    in Hw.
  assert (Hheld : held (s_item_id s) db = true).
  { rewrite held_holders. apply Nat.ltb_lt. lia. }
  pose proof Hit as Hfind. unfold item_of in Hfind. apply find_some in Hfind.
  destruct Hfind as [Hin Eid]. unfold has_item_id in Eid. apply Z.eqb_eq in Eid.
  assert (Hflag : i_is_available it = false).
  { rewrite (proj1 (availability_spec db) Hav it Hin), Eid, Hheld. reflexivity. }
  repeat split.
  - unfold item_of. rewrite Hitems. exact Hit.
  - exact Hflag.
  - exact Hheld'.
  - destruct (availability_invariant db') eqn:E; [|reflexivity].
    assert (Hin' : In it (items db')) by (now rewrite Hitems).
    pose proof (proj1 (availability_spec db') E it Hin') as C.
    rewrite Eid, Hheld', Hflag in C. discriminate C.
Qed.

(** ** Consistency along a run *)

Lemma after_discard {A : Type} (h : Handler A) (db : Store) :
  after (discard h) db = after h db.
Proof.
  unfold after, discard, bind. destruct (h db) as [[a|e] db']; reflexivity.
Qed.

(** One harmless operation keeps a consistent store consistent. *)
Lemma harmless_consistent (op : Operation) (db : Store) :
  consistent db -> harmless op db -> consistent (after (perform op) db).
Proof.
  intros C H.
  destruct op as [ty user now | id user now | id ws reason user t1 t2 | id];
    cbn [perform harmless] in *; rewrite ?after_discard.
  - now apply create_consistent.
  - destruct (session_of id db) as [s|] eqn:Hs.
    + exact (start_consistent id user now db s C Hs (H s eq_refl)).
    + unfold after. now rewrite (start_missing id user now db Hs).
  - destruct (session_of id db) as [s|] eqn:Hs.
    + unfold after.
      now rewrite (accept_end_inactive id ws reason user t1 t2 db s Hs (H s eq_refl)).
    + unfold after. now rewrite (accept_end_missing id ws reason user t1 t2 db Hs).
  - now apply expire_consistent.
Qed.

(** X17: every store reached from a consistent one by operations that are
    each harmless where they run is consistent: the availability invariant holds
    as long as no Return is accepted and no ended session is started. *)
Theorem consistent_along (ops : list Operation) (db : Store) :
  consistent db -> harmless_all ops db -> consistent (perform_all ops db).
Proof.
  revert db. induction ops as [|op rest IH]; intros db C H; [exact C|].
  destruct H as [Hop Hrest]. cbn [perform_all].
  apply IH; [now apply harmless_consistent | exact Hrest].
Qed.

Lemma one_free_item_consistent : consistent one_free_item.
Proof.
  split; [reflexivity|]. split.
  - intro id. cbn. lia.
  - constructor.
Qed.

Lemma reserved_store_consistent : consistent reserved_store.
Proof. exact (create_consistent 1 1 100 one_free_item one_free_item_consistent). Qed.

Lemma active_store_consistent : consistent active_store.
Proof.
  exact (start_consistent 1 9 200 reserved_store
           (mkSession 1 1 7 None None 100 None None None RESERVED)
           reserved_store_consistent eq_refl eq_refl).
Qed.

(** A reservation that expires and a second rental of the same item leave
    the store consistent. *)
Lemma expiry_and_second_rental_consistent :
  consistent
    (perform_all [Create 1 1 100; ExpireIfUnclaimed 1; Create 1 2 900; Start 2 9 950]
                 one_free_item).
Proof.
  apply consistent_along; [exact one_free_item_consistent|].
  cbn [harmless_all harmless]. repeat split.
  intros s Hs. vm_compute in Hs. injection Hs as <-. reflexivity.
Defined.

(** The accepted Return of the scenario, as an instance of the general
    fact. *)
Lemma returned_store_inconsistent : availability_invariant returned_store = false.
Proof.
  exact (proj2 (proj2 (proj2
           (return_breaks_availability 1 false "" 9 300 301 active_store
              (mkSession 1 1 7 (Some 9) None 100 (Some 200) None None ACTIVE)
              (mkItem 7 1 false) active_store_consistent eq_refl eq_refl eq_refl)))).
Defined.

(** * Further properties of the handlers *)

(** ** What Create allocates *)

Lemma available_of_type_spec (item_type_id : Z) (it : Item) :
  available_of_type item_type_id it = true
  <-> i_type_id it = item_type_id /\ i_is_available it = true.
Proof.
  unfold available_of_type. rewrite andb_true_iff, Z.eqb_eq.
  split; intros [E A]; split; try exact E.
  - now apply Bool.eqb_prop in A.
  - rewrite A. reflexivity.
Qed.

Lemma find_app_right {A : Type} (p : A -> bool) (l l' : list A) :
  find p l = None -> find p (l ++ l') = find p l'.
Proof.
  induction l as [|a l IH]; simpl; intro H; [reflexivity|].
  destruct (p a); [discriminate H | now apply IH].
Qed.

(** No stored session has the id the next Create will use. *)
Lemma fresh_id_unused (db : Store) (s : mnkSession) :
  In s (sessions db) -> s_id s <> fresh_id (sessions db).
Proof.
  intros Hin E. pose proof (fresh_id_above (sessions db) (s_id s)) as H.
  rewrite E in H at 1. specialize (H ltac:(rewrite <- E; now apply in_map)). lia.
Qed.

Lemma session_of_fresh (db : Store) : session_of (fresh_id (sessions db)) db = None.
Proof.
  unfold session_of. apply find_absent. intros s Hs.
  apply Z.eqb_neq. now apply fresh_id_unused.
Qed.

(** The outcome of Create determines which branch it took. *)
Lemma create_ok_inv (item_type_id user now : Z) (db db' : Store) (r : mnkSession) :
  create_mnk_session item_type_id user now db = (Ok r, db') ->
  exists first rest,
    filter (available_of_type item_type_id) (items db) = first :: rest
    /\ r = new_session first user now db
    /\ db' = created first user now db.
Proof.
  intro H.
  destruct (filter (available_of_type item_type_id) (items db)) as [|first rest] eqn:Hf.
  - rewrite (create_unavailable item_type_id user now db Hf) in H. discriminate H.
  - rewrite (create_available item_type_id user now db first rest Hf) in H.
    injection H as <- <-. now exists first, rest.
Qed.

(** X1: Create succeeds exactly when some stored item of the requested type
    is available; when it does not succeed it raises [NoneAvailable] and
    nothing else, and the store is the one it was given. *)
Theorem create_exactly_when_available (item_type_id user now : Z) (db : Store) :
  ((exists r, fst (create_mnk_session item_type_id user now db) = Ok r)
   <-> (exists it, In it (items db) /\ i_type_id it = item_type_id
                   /\ i_is_available it = true))
  /\ (forall e, fst (create_mnk_session item_type_id user now db) = Raise e ->
                e = NoneAvailable
                /\ after (create_mnk_session item_type_id user now) db = db).
Proof.
  unfold after.
  destruct (filter (available_of_type item_type_id) (items db)) as [|first rest] eqn:Hf.
  - rewrite (create_unavailable item_type_id user now db Hf). cbn [fst snd].
    split; [split|].
    + intros (r & H). discriminate H.
    + intros (it & Hin & Hty & Hav). exfalso.
      assert (Hit : In it (filter (available_of_type item_type_id) (items db))).
      { apply filter_In. split; [exact Hin|]. now apply available_of_type_spec. }
      rewrite Hf in Hit. exact Hit.
    + intros e H. injection H as <-. now split.
  - rewrite (create_available item_type_id user now db first rest Hf). cbn [fst snd].
    split; [split|].
    + intros _. exists first.
      assert (Hit : In first (filter (available_of_type item_type_id) (items db)))
        by (rewrite Hf; now left).
      apply filter_In in Hit. destruct Hit as [Hin Hp].
      apply available_of_type_spec in Hp. now split.
    + intros _. eexists. reflexivity.
    + intros e H. discriminate H.
Qed.

(** X2: a successful Create returns a RESERVED session of the caller,
    reserved at the clock reading, with no start, end or return time and no
    admin; it is on the first available item of the requested type in table
    order; afterwards every item with that id is unavailable, the session can
    be read back by its id, and one expiry check is queued for it. *)
Theorem create_reserves_first_available (item_type_id user now : Z)
  (db db' : Store) (r : mnkSession) :
  create_mnk_session item_type_id user now db = (Ok r, db') ->
  (s_status r = RESERVED /\ s_user_id r = user /\ s_reservation_ts r = now
   /\ s_start_ts r = None /\ s_end_ts r = None /\ s_actual_return_ts r = None
   /\ s_admin_open_id r = None /\ s_admin_close_id r = None)
  /\ (exists first rest,
        filter (available_of_type item_type_id) (items db) = first :: rest
        /\ s_item_id r = i_id first)
  /\ (forall it, In it (items db') -> i_id it = s_item_id r ->
                 i_is_available it = false)
  /\ get_mnk_session (s_id r) db' = (Ok r, db')
  /\ background_tasks db' = background_tasks db ++ [s_id r].
Proof.
  intro H. apply create_ok_inv in H. destruct H as (first & rest & Hf & -> & ->).
  split; [now repeat split|]. split; [now exists first, rest|]. split; [|split].
  - intros it Hit Eid. unfold created in Hit. cbn [items] in Hit.
    apply in_update_rows in Hit. destruct Hit as (x & Hx & ->).
    cbn [new_session s_item_id] in Eid.
    destruct (has_item_id (i_id first) x) eqn:E; [reflexivity|].
    unfold has_item_id in E. apply Z.eqb_neq in E. contradiction.
  - unfold get_mnk_session, bind, mnkSession_get, session_of, created.
    cbn [sessions new_session s_id].
    rewrite find_app_right by (apply session_of_fresh).
    cbn [find has_session_id s_id]. unfold has_session_id. cbn [s_id].
    rewrite Z.eqb_refl. reflexivity.
  - reflexivity.
Qed.

Lemma create_reserves_first_available_witness :
  exists r db',
    create_mnk_session 1 1 100 two_free_items = (Ok r, db')
    /\ s_item_id r = 7
    /\ get_mnk_session (s_id r) db' = (Ok r, db').
Proof.
  do 2 eexists. split; [reflexivity|].
  pose proof (create_reserves_first_available 1 1 100 two_free_items _ _ eq_refl) as H.
  destruct H as (_ & _ & _ & Hget & _). split; [reflexivity | exact Hget].
Defined.

(** X3: a successful Create appends exactly one row to the sessions, under
    an id no stored session has; the rows that were stored are read back as
    they were, and the ids stay a key. *)
Theorem create_appends_one_session (item_type_id user now : Z)
  (db db' : Store) (r : mnkSession) :
  create_mnk_session item_type_id user now db = (Ok r, db') ->
  sessions db' = sessions db ++ [r]
  /\ (forall s, In s (sessions db) -> s_id s <> s_id r)
  /\ (forall id s, session_of id db = Some s -> session_of id db' = Some s)
  /\ (session_pk db -> session_pk db').
Proof.
  intro H. apply create_ok_inv in H. destruct H as (first & rest & Hf & -> & ->).
  split; [reflexivity|]. split; [|split].
  - intros s Hs. cbn [new_session s_id]. now apply fresh_id_unused.
  - intros id s Hs. unfold session_of, created. cbn [sessions].
    now apply find_app_left.
  - intro PK. unfold session_pk, created. cbn [sessions]. rewrite map_app. cbn [map].
    apply NoDup_snoc; [exact PK|]. cbn [new_session s_id].
    intro Hin. apply fresh_id_above in Hin. lia.
Qed.

Lemma create_appends_one_session_witness :
  exists r db',
    create_mnk_session 1 1 100 two_free_items = (Ok r, db')
    /\ sessions db' = sessions two_free_items ++ [r]
    /\ (session_pk two_free_items -> session_pk db').
Proof.
  do 2 eexists. split; [reflexivity|].
  pose proof (create_appends_one_session 1 1 100 two_free_items _ _ eq_refl) as H.
  destruct H as (Happ & _ & _ & Hpk). split; [exact Happ | exact Hpk].
Defined.


(** X4: two Creates that both succeed, one right after the other, never
    hand out the same item, nor the same session id, whatever the types
    asked for. *)
Theorem no_double_allocation (ty1 user1 now1 ty2 user2 now2 : Z)
  (db db1 db2 : Store) (r1 r2 : mnkSession) :
  create_mnk_session ty1 user1 now1 db = (Ok r1, db1) ->
  create_mnk_session ty2 user2 now2 db1 = (Ok r2, db2) ->
  s_item_id r2 <> s_item_id r1 /\ s_id r2 <> s_id r1.
Proof.
  intros H1 H2.
  apply create_ok_inv in H1. destruct H1 as (f1 & rest1 & Hf1 & -> & ->).
  apply create_ok_inv in H2. destruct H2 as (f2 & rest2 & Hf2 & -> & _).
  cbn [new_session s_item_id s_id]. split.
  - assert (Hin : In f2 (filter (available_of_type ty2)
                           (items (created f1 user1 now1 db))))
      by (rewrite Hf2; now left).
    apply filter_In in Hin. destruct Hin as [Hin Hav].
    apply available_of_type_spec in Hav. destruct Hav as [_ Hav].
    unfold created in Hin. cbn [items] in Hin.
    apply in_update_rows in Hin. destruct Hin as (x & _ & E).
    destruct (has_item_id (i_id f1) x) eqn:Ex.
    + subst f2. cbn in Hav. discriminate Hav.
    + subst f2. unfold has_item_id in Ex. now apply Z.eqb_neq in Ex.
  - intro E.
    assert (Hin : In (fresh_id (sessions db))
                     (map s_id (sessions (created f1 user1 now1 db)))).
    { unfold created. cbn [sessions]. rewrite map_app, in_app_iff. right. now left. }
    apply fresh_id_above in Hin. lia.
Qed.

Lemma no_double_allocation_witness :
  exists r1 db1 r2 db2,
    create_mnk_session 1 1 100 two_free_items = (Ok r1, db1)
    /\ create_mnk_session 1 2 150 db1 = (Ok r2, db2)
    /\ s_item_id r2 <> s_item_id r1
    /\ s_id r2 <> s_id r1.
Proof.
  do 4 eexists. split; [reflexivity|]. split; [reflexivity|].
  exact (no_double_allocation 1 1 100 1 2 150 two_free_items _ _ _ _
           eq_refl eq_refl).
Defined.

(** ** The pool of available items *)

Lemma item_pk_rest_absent (id : Z) (a : Item) (l : list Item) :
  NoDup (map i_id (a :: l)) -> has_item_id id a = true ->
  forall x, In x l -> has_item_id id x = false.
Proof.
  intros ND Ha x Hx. inversion ND as [|y ys Hnotin _ E]; subst.
  unfold has_item_id in *. apply Z.eqb_eq in Ha. apply Z.eqb_neq.
  intro Ex. apply Hnotin. rewrite Ha, <- Ex. now apply in_map.
Qed.

(** Under the primary key, writing the flag of one item changes a count of
    items by what that item contributes. *)
Lemma count_update_item (q : Item -> bool) (id : Z) (b : bool)
  (l : list Item) (it : Item) :
  NoDup (map i_id l) ->
  find (has_item_id id) l = Some it ->
  (List.length (filter q (update_rows (has_item_id id) (set_available b) l))
   + one_if (q it)
   = List.length (filter q l) + one_if (q (set_available b it)))%nat.
Proof.
  induction l as [|a l IH]; intros ND H; [discriminate H|].
  cbn [find] in H. cbn [update_rows map].
  fold (update_rows (has_item_id id) (set_available b) l).
  destruct (has_item_id id a) eqn:E.
  - injection H as <-.
    rewrite (update_rows_absent _ _ l (item_pk_rest_absent id a l ND E)).
    cbn [filter]. destruct (q a), (q (set_available b a)); cbn [List.length one_if]; lia.
  - inversion ND as [|y ys _ ND' Ey]; subst.
    specialize (IH ND' H). cbn [filter].
    destruct (q a); cbn [List.length]; lia.
Qed.

(** Under the primary key the row found by id is the row that has the id. *)
Lemma item_pk_find (l : list Item) (it : Item) :
  NoDup (map i_id l) -> In it l -> find (has_item_id (i_id it)) l = Some it.
Proof.
  induction l as [|a l IH]; intros ND Hin; [destruct Hin|].
  cbn [find]. destruct Hin as [->|Hin].
  - unfold has_item_id. now rewrite Z.eqb_refl.
  - inversion ND as [|y ys Hnotin ND' Ey]; subst.
    destruct (has_item_id (i_id it) a) eqn:E.
    + exfalso. unfold has_item_id in E. apply Z.eqb_eq in E.
      apply Hnotin. rewrite E. now apply in_map.
    + now apply IH.
Qed.

(** X5: when the item ids are a key, a successful Create takes exactly one
    item out of the pool of its type and leaves the pool of every other type
    as it was. *)
Theorem create_takes_one_from_pool (item_type_id user now : Z)
  (db db' : Store) (r : mnkSession) :
  item_pk db ->
  create_mnk_session item_type_id user now db = (Ok r, db') ->
  (available_count item_type_id db' + 1 = available_count item_type_id db)%nat
  /\ (forall other, other <> item_type_id ->
                    available_count other db' = available_count other db).
Proof.
  intros PK H. apply create_ok_inv in H. destruct H as (first & rest & Hf & -> & ->).
  assert (Hin : In first (filter (available_of_type item_type_id) (items db)))
    by (rewrite Hf; now left).
  apply filter_In in Hin. destruct Hin as [Hin Hav].
  apply available_of_type_spec in Hav. destruct Hav as [Hty Hav].
  pose proof (item_pk_find (items db) first PK Hin) as Hfind.
  assert (Hcount : forall ty,
             (available_count ty (created first user now db)
              + one_if (i_type_id first =? ty)%Z
              = available_count ty db)%nat).
  { intro ty. unfold available_count, created. cbn [items].
    pose proof (count_update_item (available_of_type ty) (i_id first) false
                  (items db) first PK Hfind) as E.
    assert (E1 : available_of_type ty first = (i_type_id first =? ty)).
    { unfold available_of_type. rewrite Hav. apply andb_true_r. }
    assert (E2 : available_of_type ty (set_available false first) = false).
    { unfold available_of_type. cbn [set_available i_is_available Bool.eqb].
      apply andb_false_r. }
    rewrite E1, E2 in E. cbn [one_if] in E. lia. }
  split.
  - specialize (Hcount item_type_id). rewrite Hty, Z.eqb_refl in Hcount.
    exact Hcount.
  - intros other Hne. specialize (Hcount other).
    assert (E : (i_type_id first =? other) = false)
      by (apply Z.eqb_neq; congruence).
    rewrite E in Hcount. cbn [one_if] in Hcount. lia.
Qed.

Lemma two_free_items_pk : item_pk two_free_items.
Proof.
  unfold item_pk. cbn. constructor.
  - intros [E|[]]. discriminate E.
  - constructor; [intros []|constructor].
Qed.

Lemma create_takes_one_from_pool_witness :
  exists r db',
    create_mnk_session 1 1 100 two_free_items = (Ok r, db')
    /\ (available_count 1 db' + 1 = available_count 1 two_free_items)%nat.
Proof.
  do 2 eexists. split; [reflexivity|].
  exact (proj1 (create_takes_one_from_pool 1 1 100 two_free_items _ _
                  two_free_items_pk eq_refl)).
Defined.

(** ** Start and Return, outcome and frame *)

(** X6: Start succeeds exactly when a session has the id, whatever its
    status; the row it returns and stores is ACTIVE, started at the clock
    reading by the calling admin; when it does not succeed it raises
    [ObjectNotFound] and the store is the one it was given. *)
Theorem start_exactly_when_stored (session_id user now : Z) (db : Store) :
  let run := start_mnk_session session_id user now db in
  ((exists r, fst run = Ok r) <-> (exists s, session_of session_id db = Some s))
  /\ (forall r, fst run = Ok r ->
        s_status r = ACTIVE /\ s_start_ts r = Some now
        /\ s_admin_open_id r = Some user
        /\ session_of session_id (snd run) = Some r)
  /\ (forall e, fst run = Raise e ->
        e = ObjectNotFound /\ session_of session_id db = None /\ snd run = db).
Proof.
  intro run. subst run.
  destruct (session_of session_id db) as [s|] eqn:Hs.
  - assert (Hid : s_id s = session_id).
    { unfold session_of in Hs. now apply find_has_id in Hs. }
    rewrite (start_found session_id user now db s Hs). cbn [fst snd].
    split; [split|split].
    + intros _. now exists s.
    + intros _. eexists. reflexivity.
    + intros r H. injection H as <-. repeat split.
      rewrite <- Hid. apply session_of_started. now rewrite Hid.
    + intros e H. discriminate H.
  - rewrite (start_missing session_id user now db Hs). cbn [fst snd].
    split; [split|split].
    + intros (r & H). discriminate H.
    + intros (s & H). discriminate H.
    + intros r H. discriminate H.
    + intros e H. injection H as <-. now repeat split.
Qed.

(** X7: Start and Return write nothing but the named session, the audit
    trail and, for Return, the strikes: the items, the queued expiry checks
    and the ids of the stored sessions are as before, and Start leaves the
    strikes alone. *)
Theorem start_and_return_frame (session_id user now : Z) (with_strike : bool)
  (reason : string) (now_end now_return : Z) (db : Store) :
  (let db' := after (start_mnk_session session_id user now) db in
   items db' = items db /\ background_tasks db' = background_tasks db
   /\ strikes db' = strikes db
   /\ map s_id (sessions db') = map s_id (sessions db))
  /\ (let db' := after (accept_end_mnk_session session_id with_strike reason user
                                               now_end now_return) db in
      items db' = items db /\ background_tasks db' = background_tasks db
      /\ map s_id (sessions db') = map s_id (sessions db)).
Proof.
  unfold after. split.
  - destruct (session_of session_id db) as [s|] eqn:Hs.
    + assert (Hid : s_id s = session_id).
      { unfold session_of in Hs. now apply find_has_id in Hs. }
      rewrite (start_found session_id user now db s Hs). cbn [snd].
      unfold started. cbn [items background_tasks strikes sessions].
      repeat split. apply update_rows_ids.
    + rewrite (start_missing session_id user now db Hs). now repeat split.
  - destruct (session_of session_id db) as [s|] eqn:Hs.
    + destruct (status_cases (s_status s)) as [Hst|Hst].
      * rewrite (accept_end_active session_id with_strike reason user now_end
                   now_return db s Hs Hst). cbn [snd].
        destruct with_strike; unfold after, create_strike, return_committed;
          cbn [snd items background_tasks sessions]; repeat split;
          apply update_rows_ids.
      * rewrite (accept_end_inactive session_id with_strike reason user now_end
                   now_return db s Hs Hst). now repeat split.
    + rewrite (accept_end_missing session_id with_strike reason user now_end
                 now_return db Hs). now repeat split.
Qed.

(** The row of a stored session after any operation: the row itself, or
    the row with some columns written. *)
Lemma row_after_perform (op : Operation) (db : Store) (session_id : Z)
  (s : mnkSession) :
  session_pk db ->
  session_of session_id db = Some s ->
  exists s',
    session_of session_id (after (perform op) db) = Some s'
    /\ (s' = s
        \/ (target op = Some session_id /\ exists c, s' = setattrs c s)).
Proof.
  intros PK Hs.
  assert (Hwritten : forall (id : Z) (c : Columns) (db' : Store),
             sessions db' = update_rows (has_session_id id) (setattrs c) (sessions db) ->
             exists s', session_of session_id db' = Some s'
                        /\ (s' = s \/ (Some id = Some session_id
                                       /\ exists c, s' = setattrs c s))).
  { intros id c db' E. unfold session_of. rewrite E.
    unfold session_of in Hs.
    rewrite (find_update_rows session_id id c (sessions db) s Hs).
    eexists. split; [reflexivity|].
    destruct (id =? session_id) eqn:Eid; [|now left].
    apply Z.eqb_eq in Eid. subst id. right. split; [reflexivity | now exists c]. }
  destruct op as [ty user now | id user now | id ws reason user t1 t2 | id];
    cbn [perform target]; rewrite ?after_discard.
  - exists s. split; [|now left]. unfold after.
    destruct (filter (available_of_type ty) (items db)) as [|first rest] eqn:Hf.
    + now rewrite (create_unavailable ty user now db Hf).
    + rewrite (create_available ty user now db first rest Hf). cbn [snd].
      unfold session_of, created. cbn [sessions]. now apply find_app_left.
  - unfold after. destruct (session_of id db) as [s2|] eqn:Hs2.
    + assert (Hid : s_id s2 = id).
      { unfold session_of in Hs2. now apply find_has_id in Hs2. }
      rewrite (start_found id user now db s2 Hs2). cbn [snd].
      apply (Hwritten id (start_columns user now)).
      unfold started. cbn [sessions]. now rewrite Hid.
    + rewrite (start_missing id user now db Hs2). exists s. split; [exact Hs | now left].
  - unfold after. destruct (session_of id db) as [s2|] eqn:Hs2.
    + destruct (status_cases (s_status s2)) as [Hst|Hst].
      * rewrite (accept_end_active id ws reason user t1 t2 db s2 Hs2 Hst). cbn [snd].
        apply (Hwritten id (return_columns s2 user t1 t2)).
        now destruct ws.
      * rewrite (accept_end_inactive id ws reason user t1 t2 db s2 Hs2 Hst).
        exists s. split; [exact Hs | now left].
    + rewrite (accept_end_missing id ws reason user t1 t2 db Hs2).
      exists s. split; [exact Hs | now left].
  - destruct (session_of id db) as [s2|] eqn:Hs2.
    + destruct (RentStatus_eqb (s_status s2) RESERVED) eqn:Hst.
      * apply RentStatus_eqb_eq in Hst.
        apply (Hwritten id expire_columns).
        now apply (sessions_after_expiration id db s2).
      * apply RentStatus_eqb_neq in Hst. unfold after.
        rewrite (expiration_of_other id db PK).
        -- exists s. split; [exact Hs | now left].
        -- intros s3 E3. rewrite Hs2 in E3. injection E3 as <-. exact Hst.
    + unfold after. rewrite (expiration_of_other id db PK).
      * exists s. split; [exact Hs | now left].
      * intros s3 E3. rewrite Hs2 in E3. discriminate E3.
Qed.

(** X8: an operation changes no session but the one it names: under the
    sessions' primary key, a stored session that the operation does not name
    is read back exactly as it was, and Create changes no stored session. *)
Theorem other_sessions_untouched (op : Operation) (db : Store) (session_id : Z)
  (s : mnkSession) :
  session_pk db ->
  session_of session_id db = Some s ->
  target op <> Some session_id ->
  session_of session_id (after (perform op) db) = Some s.
Proof.
  intros PK Hs Hne.
  destruct (row_after_perform op db session_id s PK Hs) as (s' & Hs' & [->|[Ht _]]).
  - exact Hs'.
  - contradiction.
Qed.

(** X9: sessions are never deleted and their identity never changes: under
    the sessions' primary key, after any operation a stored session is still
    stored with the same id, user, item and reservation time. *)
Theorem session_identity_kept (op : Operation) (db : Store) (session_id : Z)
  (s : mnkSession) :
  session_pk db ->
  session_of session_id db = Some s ->
  exists s',
    session_of session_id (after (perform op) db) = Some s'
    /\ s_id s' = s_id s /\ s_user_id s' = s_user_id s
    /\ s_item_id s' = s_item_id s /\ s_reservation_ts s' = s_reservation_ts s.
Proof.
  intros PK Hs.
  destruct (row_after_perform op db session_id s PK Hs)
    as (s' & Hs' & [->|[_ (c & ->)]]); eexists; (split; [exact Hs'|]);
    now repeat split.
Qed.

Lemma other_sessions_untouched_witness :
  session_of 1 (after (perform (Start 2 9 950))
                      (after (create_mnk_session 1 2 900)
                             (after (check_session_expiration 1) reserved_store)))
  = Some (mkSession 1 1 7 None None 100 None None None CANCELED).
Proof.
  apply (other_sessions_untouched (Start 2 9 950)
           (after (create_mnk_session 1 2 900)
                  (after (check_session_expiration 1) reserved_store)) 1).
  - unfold session_pk. vm_compute.
    constructor; [intros [E|[]]; discriminate E|].
    constructor; [intros []|constructor].
  - reflexivity.
  - cbn [target]. intro E. discriminate E.
Defined.

Lemma session_identity_kept_witness :
  exists s',
    session_of 1 (after (perform (Return 1 true "damaged" 9 300 301)) active_store)
    = Some s'
    /\ s_id s' = 1 /\ s_user_id s' = 1 /\ s_item_id s' = 7
    /\ s_reservation_ts s' = 100.
Proof.
  apply (session_identity_kept (Return 1 true "damaged" 9 300 301) active_store 1
           (mkSession 1 1 7 (Some 9) None 100 (Some 200) None None ACTIVE)).
  - unfold session_pk. vm_compute. constructor; [intros []|constructor].
  - reflexivity.
Defined.

(** A Return run on the very store a successful Return of the same session
    left raises [InactiveSession] and writes nothing. *)
Theorem return_not_repeatable (session_id : Z) (with_strike : bool) (reason : string)
  (user now_end now_return : Z) (db db' : Store) (r : mnkSession)
  (with_strike' : bool) (reason' : string) (user' now_end' now_return' : Z) :
  accept_end_mnk_session session_id with_strike reason user now_end now_return db
  = (Ok r, db') ->
  accept_end_mnk_session session_id with_strike' reason' user' now_end' now_return' db'
  = (Raise InactiveSession, db')
  /\ session_of session_id db' = Some r.
Proof.
  intro H.
  destruct (session_of session_id db) as [s|] eqn:Hs.
  - destruct (status_cases (s_status s)) as [Hst|Hst].
    + rewrite (accept_end_active session_id with_strike reason user now_end
                 now_return db s Hs Hst) in H.
      injection H as <- <-.
      assert (Hs' : session_of session_id
                      (if with_strike
                       then after (create_strike
                                     (mkStrikePost (s_user_id s) user reason (s_id s)))
                                  (return_committed session_id s user now_end
                                                    now_return db)
                       else return_committed session_id s user now_end now_return db)
                    = Some (setattrs (return_columns s user now_end now_return) s)).
      { pose proof (session_of_return_committed session_id s user now_end now_return
                      db Hs) as Hc.
        destruct with_strike; exact Hc. }
      split; [|exact Hs'].
      apply (accept_end_inactive session_id with_strike' reason' user' now_end'
               now_return' _ _ Hs').
      cbn. discriminate.
    + rewrite (accept_end_inactive session_id with_strike reason user now_end
                 now_return db s Hs Hst) in H. discriminate H.
  - rewrite (accept_end_missing session_id with_strike reason user now_end
               now_return db Hs) in H. discriminate H.
Qed.

Lemma return_not_repeatable_witness :
  exists r db',
    accept_end_mnk_session 1 false "" 9 300 301 active_store = (Ok r, db')
    /\ accept_end_mnk_session 1 true "late" 9 400 401 db' = (Raise InactiveSession, db')
    /\ session_of 1 db' = Some r.
Proof.
  do 2 eexists. split; [reflexivity|].
  exact (return_not_repeatable 1 false "" 9 300 301 active_store _ _
           true "late" 9 400 401 eq_refl).
Defined.

(** ** The audit trail *)

(** X11: every request that succeeds appends exactly one record to the
    audit trail, carrying the action type of the operation and the admin who
    acted (none for Create); a request that raises appends nothing; records
    already written are never changed. *)
Theorem one_audit_record_per_request (op : Operation) (db : Store) :
  is_request op = true ->
  (fst (perform op db) = Ok tt ->
   exists a, actions (after (perform op) db) = actions db ++ [a]
             /\ a_action_type a = action_tag op
             /\ a_admin_id a = acting_admin op
             /\ (forall id, target op = Some id -> a_session_id a = id))
  /\ (forall e, fst (perform op db) = Raise e ->
                actions (after (perform op) db) = actions db).
Proof.
  intro Hreq.
  destruct op as [ty user now | id user now | id ws reason user t1 t2 | id];
    [| | |discriminate Hreq];
    unfold after; cbn [perform action_tag acting_admin target]; unfold discard, bind.
  - destruct (filter (available_of_type ty) (items db)) as [|first rest] eqn:Hf.
    + rewrite (create_unavailable ty user now db Hf). cbv beta iota. cbn [fst snd].
      split; [intro H; discriminate H | reflexivity].
    + rewrite (create_available ty user now db first rest Hf).
      cbv beta iota. cbn [fst snd ret]. split; [|intros e H; discriminate H].
      intros _. eexists. split; [reflexivity|]. repeat split.
      intros id H. discriminate H.
  - destruct (session_of id db) as [s|] eqn:Hs.
    + assert (Hid : s_id s = id).
      { unfold session_of in Hs. now apply find_has_id in Hs. }
      rewrite (start_found id user now db s Hs).
      cbv beta iota. cbn [fst snd ret]. split; [|intros e H; discriminate H].
      intros _. eexists. split; [reflexivity|]. repeat split.
      intros id' H. injection H as <-. exact Hid.
    + rewrite (start_missing id user now db Hs). cbv beta iota. cbn [fst snd].
      split; [intro H; discriminate H | reflexivity].
  - destruct (session_of id db) as [s|] eqn:Hs.
    + assert (Hid : s_id s = id).
      { unfold session_of in Hs. now apply find_has_id in Hs. }
      destruct (status_cases (s_status s)) as [Hst|Hst].
      * rewrite (accept_end_active id ws reason user t1 t2 db s Hs Hst).
        cbv beta iota. cbn [fst snd ret]. split; [|intros e H; discriminate H].
        intros _.
        exists (mkAction (s_user_id s) (Some user) (s_id s) "RETURN_SESSION"
                         [("status", DStatus RETURNED)]).
        split; [now destruct ws|]. repeat split.
        intros id' H. injection H as <-. exact Hid.
      * rewrite (accept_end_inactive id ws reason user t1 t2 db s Hs Hst).
        cbv beta iota. cbn [fst snd]. split; [intro H; discriminate H | reflexivity].
    + rewrite (accept_end_missing id ws reason user t1 t2 db Hs).
      cbv beta iota. cbn [fst snd]. split; [intro H; discriminate H | reflexivity].
Qed.

Lemma one_audit_record_per_request_witness :
  exists a, actions (after (perform (Start 1 9 200)) reserved_store)
            = actions reserved_store ++ [a]
            /\ a_action_type a = "START_SESSION"
            /\ a_admin_id a = Some 9
            /\ (forall id, Some 1 = Some id -> a_session_id a = id).
Proof.
  exact (proj1 (one_audit_record_per_request (Start 1 9 200) reserved_store eq_refl)
           eq_refl).
Defined.

(** ** Listings *)



Lemma filter_all {A : Type} (p : A -> bool) (l : list A) :
  (forall x, In x l -> p x = true) -> filter p l = l.
Proof.
  induction l as [|a l IH]; simpl; intro H; [reflexivity|].
  rewrite (H a (or_introl eq_refl)). f_equal. apply IH.
  intros x Hx. apply H. now right.
Qed.

Lemma filter_split_length {A : Type} (p : A -> bool) (l : list A) :
  (List.length (filter p l) + List.length (filter (fun x => negb (p x)) l)
   = List.length l)%nat.
Proof.
  induction l as [|a l IH]; simpl; [reflexivity|].
  destruct (p a); simpl; lia.
Qed.

(** X13: with its six flags set the list-by-status query returns every
    stored session in table order; and for any flags, the listing and the
    listing under the opposite flags share no session and together have as
    many sessions as are stored. *)
Theorem status_listings_partition (r c d o t a : bool) (db : Store) :
  get_mnk_sessions true true true true true true db = (Ok (sessions db), db)
  /\ exists shown hidden,
       get_mnk_sessions r c d o t a db = (Ok shown, db)
       /\ get_mnk_sessions (negb r) (negb c) (negb d) (negb o) (negb t) (negb a) db
          = (Ok hidden, db)
       /\ (forall s, In s shown -> ~ In s hidden)
       /\ (List.length shown + List.length hidden = List.length (sessions db))%nat.
Proof.
  assert (Hrun : forall r c d o t a,
             get_mnk_sessions r c d o t a db
             = (Ok (filter (fun s => selected r c d o t a (s_status s)) (sessions db)),
                db)).
  { intros. unfold get_mnk_sessions, bind, mnkSession_query.
    rewrite (filter_ext _ (fun s => selected r0 c0 d0 o0 t0 a0 (s_status s)));
      [apply validate_all_rows|]. intro s. apply status_in_to_show. }
  assert (Hneg : forall st,
             selected (negb r) (negb c) (negb d) (negb o) (negb t) (negb a) st
             = negb (selected r c d o t a st)) by (intros []; reflexivity).
  split.
  - rewrite Hrun. rewrite filter_all; [reflexivity|]. intros s _.
    destruct (s_status s); reflexivity.
  - do 2 eexists. split; [apply Hrun|]. split; [apply Hrun|]. split.
    + intros s Hs Hh. apply filter_In in Hs. apply filter_In in Hh.
      destruct Hs as [_ Hs]. destruct Hh as [_ Hh].
      rewrite Hneg, Hs in Hh. discriminate Hh.
    + rewrite (filter_ext (fun s => selected (negb r) (negb c) (negb d) (negb o)
                                             (negb t) (negb a) (s_status s))
                          (fun s => negb (selected r c d o t a (s_status s))))
        by (intro s; apply Hneg).
      apply filter_split_length.
Qed.

(** ** The expiry check, repeated and after Create *)

(** The row of the named session once the expiry check of a RESERVED
    session has run. *)
Lemma session_after_expiration (session_id : Z) (db : Store) (s : mnkSession) :
  session_pk db ->
  session_of session_id db = Some s ->
  s_status s = RESERVED ->
  session_of session_id (after (check_session_expiration session_id) db)
  = Some (setattrs expire_columns s).
Proof.
  intros PK Hs Hst. unfold session_of at 1.
  rewrite (sessions_after_expiration session_id db s PK Hs Hst).
  rewrite find_update_same. unfold session_of in Hs. rewrite Hs. reflexivity.
Qed.

(** X14: under the sessions' primary key, an expiry check leaves nothing
    for a second check of the same session to do: run again on the store the
    first one left, the check returns normally and writes nothing. *)
Theorem expiry_idempotent (session_id : Z) (db : Store) :
  session_pk db ->
  check_session_expiration session_id
    (after (check_session_expiration session_id) db)
  = (Ok tt, after (check_session_expiration session_id) db).
Proof.
  intros PK.
  destruct (session_of session_id db) as [s|] eqn:Hs.
  - destruct (RentStatus_eqb (s_status s) RESERVED) eqn:Hst.
    + apply RentStatus_eqb_eq in Hst.
      apply expiration_of_other.
      * exact (written_pk session_id expire_columns db _ PK
                 (sessions_after_expiration session_id db s PK Hs Hst)).
      * intros s' Hs'.
        rewrite (session_after_expiration session_id db s PK Hs Hst) in Hs'.
        injection Hs' as <-. cbn. discriminate.
    + apply RentStatus_eqb_neq in Hst.
      assert (E : check_session_expiration session_id db = (Ok tt, db)).
      { apply (expiration_of_other session_id db PK).
        intros s' Hs'. rewrite Hs in Hs'. injection Hs' as <-. exact Hst. }
      unfold after. rewrite E. cbn [snd]. exact E.
  - assert (E : check_session_expiration session_id db = (Ok tt, db)).
    { apply (expiration_of_other session_id db PK).
      intros s' Hs'. rewrite Hs in Hs'. discriminate Hs'. }
    unfold after. rewrite E. cbn [snd]. exact E.
Qed.

Lemma expiry_idempotent_witness :
  check_session_expiration 1 (after (check_session_expiration 1) reserved_store)
  = (Ok tt, after (check_session_expiration 1) reserved_store).
Proof. exact (expiry_idempotent 1 reserved_store reserved_store_pk). Defined.

Lemma item_pk_unique (l : list Item) (x y : Item) :
  NoDup (map i_id l) -> In x l -> In y l -> i_id x = i_id y -> x = y.
Proof.
  intros ND Hx Hy E.
  pose proof (item_pk_find l x ND Hx) as Fx.
  pose proof (item_pk_find l y ND Hy) as Fy.
  rewrite E in Fx. rewrite Fx in Fy. now injection Fy.
Qed.

(** Taking an available item and releasing it gives back the table, when
    the item ids are a key. *)
Lemma release_after_take (l : list Item) (first : Item) :
  NoDup (map i_id l) -> In first l -> i_is_available first = true ->
  update_rows (has_item_id (i_id first)) (set_available true)
    (update_rows (has_item_id (i_id first)) (set_available false) l)
  = l.
Proof.
  intros ND Hin Hav. unfold update_rows. rewrite map_map.
  rewrite <- (map_id l) at 2. apply map_ext_in. intros x Hx.
  destruct (has_item_id (i_id first) x) eqn:E.
  - unfold has_item_id in *. cbn [set_available i_id]. rewrite E.
    apply Z.eqb_eq in E.
    rewrite (item_pk_unique l x first ND Hx Hin E).
    destruct first as [i t a]. cbn in Hav. subst a. reflexivity.
  - rewrite E. reflexivity.
Qed.

Lemma created_pk (first : Item) (user now : Z) (db : Store) :
  session_pk db -> session_pk (created first user now db).
Proof.
  intro PK. unfold session_pk, created. cbn [sessions]. rewrite map_app. cbn [map].
  apply NoDup_snoc; [exact PK|]. cbn [new_session s_id].
  intro Hin. apply fresh_id_above in Hin. lia.
Qed.

(** The expiry check run on the very store a successful Create left, when
    the item and session ids are keys: it returns normally, leaves the new
    session CANCELED and the items exactly as they were before the Create. *)
Theorem create_then_expiry_restores_items (item_type_id user now : Z)
  (db db' : Store) (r : mnkSession) :
  item_pk db ->
  session_pk db ->
  create_mnk_session item_type_id user now db = (Ok r, db') ->
  In (s_id r) (background_tasks db')
  /\ fst (check_session_expiration (s_id r) db') = Ok tt
  /\ items (after (check_session_expiration (s_id r)) db') = items db
  /\ option_map s_status
       (session_of (s_id r) (after (check_session_expiration (s_id r)) db'))
     = Some CANCELED.
Proof.
  intros IPK PK H.
  apply create_ok_inv in H. destruct H as (first & rest & Hf & -> & ->).
  pose proof (created_pk first user now db PK) as PK'.
  assert (Hin : In first (filter (available_of_type item_type_id) (items db)))
    by (rewrite Hf; now left).
  apply filter_In in Hin. destruct Hin as [Hin Hav].
  apply available_of_type_spec in Hav. destruct Hav as [_ Hav].
  set (r := new_session first user now db) in *.
  set (db' := created first user now db) in *.
  assert (Hs : session_of (s_id r) db' = Some r).
  { subst r db'. unfold session_of, created. cbn [sessions new_session s_id].
    rewrite find_app_right by (apply session_of_fresh).
    cbn [find]. unfold has_session_id. cbn [s_id]. now rewrite Z.eqb_refl. }
  assert (Hit : exists it, item_of (s_item_id r) db' = Some it).
  { subst r db'. unfold item_of, created. cbn [items new_session s_item_id].
    rewrite find_item_update_same.
    rewrite (item_pk_find (items db) first IPK Hin). eexists. reflexivity. }
  destruct Hit as (it & Hit).
  pose proof (expiration_of_reserved (s_id r) db' r it PK' Hs eq_refl Hit) as E.
  unfold after. rewrite E. cbn [fst snd]. split; [|split; [reflexivity|split]].
  - subst r db'. unfold created. cbn [background_tasks new_session s_id].
    rewrite in_app_iff. right. now left.
  - subst r db'. unfold expired, created. cbn [items new_session s_item_id].
    now apply release_after_take.
  - rewrite (session_of_expired db' r Hs). reflexivity.
Qed.

Lemma create_then_expiry_restores_items_witness :
  exists r db',
    create_mnk_session 1 1 100 two_free_items = (Ok r, db')
    /\ fst (check_session_expiration (s_id r) db') = Ok tt
    /\ items (after (check_session_expiration (s_id r)) db') = items two_free_items.
Proof.
  do 2 eexists. split; [reflexivity|].
  pose proof (create_then_expiry_restores_items 1 1 100 two_free_items _ _
                two_free_items_pk (NoDup_nil Z) eq_refl) as H.
  destruct H as (_ & Hok & Hitems & _). split; [exact Hok | exact Hitems].
Defined.

(** ** Keys and a whole rental *)

(** X20: the session ids stay a key under every operation, accepted or
    refused. *)
Theorem operations_keep_session_key (op : Operation) (db : Store) :
  session_pk db -> session_pk (after (perform op) db).
Proof.
  intro PK.
  destruct op as [ty user now | id user now | id ws reason user t1 t2 | id];
    cbn [perform]; rewrite ?after_discard.
  - unfold after.
    destruct (filter (available_of_type ty) (items db)) as [|first rest] eqn:Hf.
    + now rewrite (create_unavailable ty user now db Hf).
    + rewrite (create_available ty user now db first rest Hf). cbn [snd].
      now apply created_pk.
  - unfold after. destruct (session_of id db) as [s|] eqn:Hs.
    + rewrite (start_found id user now db s Hs). cbn [snd]. now apply started_pk.
    + now rewrite (start_missing id user now db Hs).
  - unfold after. destruct (session_of id db) as [s|] eqn:Hs.
    + destruct (status_cases (s_status s)) as [Hst|Hst].
      * rewrite (accept_end_active id ws reason user t1 t2 db s Hs Hst). cbn [snd].
        apply (written_pk id (return_columns s user t1 t2) db _ PK).
        now destruct ws.
      * now rewrite (accept_end_inactive id ws reason user t1 t2 db s Hs Hst).
    + now rewrite (accept_end_missing id ws reason user t1 t2 db Hs).
  - destruct (session_of id db) as [s|] eqn:Hs.
    + destruct (RentStatus_eqb (s_status s) RESERVED) eqn:Hst.
      * apply RentStatus_eqb_eq in Hst.
        exact (written_pk id expire_columns db _ PK
                 (sessions_after_expiration id db s PK Hs Hst)).
      * apply RentStatus_eqb_neq in Hst. unfold after.
        rewrite (expiration_of_other id db PK); [exact PK|].
        intros s' Hs'. rewrite Hs in Hs'. injection Hs' as <-. exact Hst.
    + unfold after. rewrite (expiration_of_other id db PK); [exact PK|].
      intros s' Hs'. rewrite Hs in Hs'. discriminate Hs'.
Qed.

Lemma operations_keep_session_key_witness :
  session_pk (after (perform (Create 1 2 900)) reserved_store).
Proof.
  exact (operations_keep_session_key (Create 1 2 900) reserved_store
           reserved_store_pk).
Defined.

Lemma session_of_created (first : Item) (user now : Z) (db : Store) :
  session_of (fresh_id (sessions db)) (created first user now db)
  = Some (new_session first user now db).
Proof.
  unfold session_of, created. cbn [sessions].
  rewrite find_app_right by (apply session_of_fresh).
  cbn [find]. unfold has_session_id. cbn [new_session s_id].
  now rewrite Z.eqb_refl.
Qed.

(** X21: a whole rental: on the session a successful Create returned, Start
    and then Return are both accepted, and the row Return leaves keeps the
    user, the item and the reservation time of the Create, has the start time
    and opening admin of the Start, the end and return times and closing admin
    of the Return, and status RETURNED. *)
Theorem rental_lifecycle (item_type_id user t_reserve : Z) (db db1 : Store)
  (r : mnkSession) (opener t_start : Z) (with_strike : bool) (reason : string)
  (closer t_end t_return : Z) :
  create_mnk_session item_type_id user t_reserve db = (Ok r, db1) ->
  exists r1 db2 r2 db3,
    start_mnk_session (s_id r) opener t_start db1 = (Ok r1, db2)
    /\ accept_end_mnk_session (s_id r) with_strike reason closer t_end t_return db2
       = (Ok r2, db3)
    /\ r2 = mkSession (s_id r) user (s_item_id r) (Some opener) (Some closer)
                      t_reserve (Some t_start) (Some t_end) (Some t_return) RETURNED
    /\ session_of (s_id r) db3 = Some r2.
Proof.
  intro H. apply create_ok_inv in H. destruct H as (first & rest & Hf & -> & ->).
  set (r := new_session first user t_reserve db).
  set (db1 := created first user t_reserve db).
  assert (Hs : session_of (s_id r) db1 = Some r) by (apply session_of_created).
  pose proof (start_found (s_id r) opener t_start db1 r Hs) as Hstart.
  set (r1 := setattrs (start_columns opener t_start) r) in *.
  set (db2 := started r opener t_start db1) in *.
  assert (Hs1 : session_of (s_id r) db2 = Some r1)
    by (now apply session_of_started).
  pose proof (accept_end_active (s_id r) with_strike reason closer t_end t_return
                db2 r1 Hs1 eq_refl) as Hret.
  do 4 eexists. split; [exact Hstart|]. split; [exact Hret|]. split.
  - reflexivity.
  - pose proof (session_of_return_committed (s_id r) r1 closer t_end t_return
                  db2 Hs1) as Hc.
    destruct with_strike; exact Hc.
Qed.

Lemma rental_lifecycle_witness :
  exists r db1 r1 db2 r2 db3,
    create_mnk_session 1 1 100 one_free_item = (Ok r, db1)
    /\ start_mnk_session (s_id r) 9 200 db1 = (Ok r1, db2)
    /\ accept_end_mnk_session (s_id r) false "" 9 300 301 db2 = (Ok r2, db3)
    /\ r2 = mkSession 1 1 7 (Some 9) (Some 9) 100 (Some 200) (Some 300) (Some 301)
                      RETURNED.
Proof.
  exists (mkSession 1 1 7 None None 100 None None None RESERVED), reserved_store.
  destruct (rental_lifecycle 1 1 100 one_free_item reserved_store
              (mkSession 1 1 7 None None 100 None None None RESERVED)
              9 200 false "" 9 300 301 eq_refl)
    as (r1 & db2 & r2 & db3 & H1 & H2 & H3 & _).
  exists r1, db2, r2, db3. split; [reflexivity|]. split; [exact H1|].
  split; [exact H2 | exact H3].
Defined.

Lemma start_first_wins_witness :
  race StartFirst 1 9 200 reserved_store
  = (Ok (mkSession 1 1 7 (Some 9) None 100 (Some 200) None None ACTIVE), Ok tt,
     active_store).
Proof.
  exact (start_first_wins 1 9 200 reserved_store
           (mkSession 1 1 7 None None 100 None None None RESERVED)
           reserved_store_pk eq_refl eq_refl).
Defined.

Lemma expiry_first_then_start_witness :
  exists r db',
    race ExpireFirst 1 9 200 reserved_store = (Ok r, Ok tt, db')
    /\ s_status r = ACTIVE
    /\ session_of 1 db' = Some r
    /\ item_of 7 db' = Some (mkItem 7 1 true).
Proof.
  exact (expiry_first_then_start 1 9 200 reserved_store
           (mkSession 1 1 7 None None 100 None None None RESERVED)
           (mkItem 7 1 false) reserved_store_pk eq_refl eq_refl eq_refl).
Defined.

(** ** Runs of operations between two steps *)

Lemma session_key_after (op : Operation) (db : Store) :
  session_pk db -> session_pk (after (perform op) db).
Proof.
  intro PK. unfold session_pk.
  destruct op as [ty user now | id user now | id ws reason user t1 t2 | id];
    cbn [perform]; rewrite ?after_discard; unfold after.
  - destruct (filter (available_of_type ty) (items db)) as [|first rest] eqn:Hf.
    + now rewrite (create_unavailable ty user now db Hf).
    + rewrite (create_available ty user now db first rest Hf).
      exact (created_pk first user now db PK).
  - destruct (session_of id db) as [s|] eqn:Hs.
    + rewrite (start_found id user now db s Hs). exact (started_pk s user now db PK).
    + now rewrite (start_missing id user now db Hs).
  - destruct (session_of id db) as [s|] eqn:Hs;
      [destruct (status_cases (s_status s)) as [Hst|Hst]|].
    + rewrite (accept_end_active id ws reason user t1 t2 db s Hs Hst). cbn [snd].
      apply (written_pk id (return_columns s user t1 t2) db _ PK). now destruct ws.
    + now rewrite (accept_end_inactive id ws reason user t1 t2 db s Hs Hst).
    + now rewrite (accept_end_missing id ws reason user t1 t2 db Hs).
  - destruct (session_of id db) as [s|] eqn:Hs;
      [destruct (RentStatus_eqb (s_status s) RESERVED) eqn:Hst|].
    + apply RentStatus_eqb_eq in Hst.
      exact (written_pk id expire_columns db _ PK
               (sessions_after_expiration id db s PK Hs Hst)).
    + apply RentStatus_eqb_neq in Hst.
      rewrite (expiration_of_other id db PK); [exact PK|].
      intros s' Hs'. rewrite Hs in Hs'. injection Hs' as <-. exact Hst.
    + rewrite (expiration_of_other id db PK); [exact PK|].
      intros s' Hs'. rewrite Hs in Hs'. discriminate Hs'.
Qed.

(** A run of operations none of which names a session leaves its row as it
    was. *)
Lemma untargeted_run (ops : list Operation) (db : Store) (session_id : Z)
  (s : mnkSession) :
  session_pk db ->
  session_of session_id db = Some s ->
  (forall op, In op ops -> target op <> Some session_id) ->
  session_pk (perform_all ops db)
  /\ session_of session_id (perform_all ops db) = Some s.
Proof.
  revert db. induction ops as [|op rest IH]; intros db PK Hs H; [now split|].
  cbn [perform_all]. apply IH.
  - now apply session_key_after.
  - destruct (row_after_perform op db session_id s PK Hs)
      as (s' & Hs' & [->|[Ht _]]); [exact Hs'|].
    exfalso. exact (H op (or_introl eq_refl) Ht).
  - intros op' Hin. apply H. now right.
Qed.






Lemma find_item_update_stored (id id' : Z) (b : bool) (l : list Item) (it : Item) :
  find (has_item_id id') l = Some it ->
  exists it',
    find (has_item_id id') (update_rows (has_item_id id) (set_available b) l)
    = Some it'.
Proof.
  unfold update_rows. induction l as [|a l IH]; cbn [find map]; intro H;
    [discriminate H|].
  assert (E : has_item_id id' (if has_item_id id a then set_available b a else a)
              = has_item_id id' a) by (destruct (has_item_id id a); reflexivity).
  rewrite E. destruct (has_item_id id' a); [eexists; reflexivity | now apply IH].
Qed.

(** No operation removes an item. *)
Lemma item_stored_after (op : Operation) (db : Store) (id : Z) (it : Item) :
  session_pk db ->
  item_of id db = Some it ->
  exists it', item_of id (after (perform op) db) = Some it'.
Proof.
  intros PK Hit.
  destruct op as [ty user now | sid user now | sid ws reason user t1 t2 | sid];
    cbn [perform]; rewrite ?after_discard; unfold after.
  - destruct (filter (available_of_type ty) (items db)) as [|first rest] eqn:Hf.
    + rewrite (create_unavailable ty user now db Hf). now exists it.
    + rewrite (create_available ty user now db first rest Hf). cbn [snd].
      unfold item_of, created. cbn [items]. now apply find_item_update_stored with it.
  - destruct (session_of sid db) as [s|] eqn:Hs.
    + rewrite (start_found sid user now db s Hs). now exists it.
    + rewrite (start_missing sid user now db Hs). now exists it.
  - destruct (session_of sid db) as [s|] eqn:Hs;
      [destruct (status_cases (s_status s)) as [Hst|Hst]|].
    + rewrite (accept_end_active sid ws reason user t1 t2 db s Hs Hst).
      exists it. now destruct ws.
    + rewrite (accept_end_inactive sid ws reason user t1 t2 db s Hs Hst).
      now exists it.
    + rewrite (accept_end_missing sid ws reason user t1 t2 db Hs). now exists it.
  - destruct (session_of sid db) as [s|] eqn:Hs;
      [destruct (RentStatus_eqb (s_status s) RESERVED) eqn:Hst|].
    + apply RentStatus_eqb_eq in Hst. unfold item_of.
      pose proof (items_after_expiration sid db s PK Hs Hst) as E.
      unfold after in E. rewrite E. now apply find_item_update_stored with it.
    + apply RentStatus_eqb_neq in Hst.
      rewrite (expiration_of_other sid db PK); [now exists it|].
      intros s' Hs'. rewrite Hs in Hs'. injection Hs' as <-. exact Hst.
    + rewrite (expiration_of_other sid db PK); [now exists it|].
      intros s' Hs'. rewrite Hs in Hs'. discriminate Hs'.
Qed.

Lemma item_stored_along (ops : list Operation) (db : Store) (id : Z) (it : Item) :
  session_pk db ->
  item_of id db = Some it ->
  exists it', item_of id (perform_all ops db) = Some it'.
Proof.
  revert db it. induction ops as [|op rest IH]; intros db it PK Hit; [now exists it|].
  cbn [perform_all].
  destruct (item_stored_after op db id it PK Hit) as (it1 & Hit1).
  exact (IH _ it1 (session_key_after op db PK) Hit1).
Qed.

(** X16: a reservation that is not started times out: under the sessions'
    primary key, after a successful Create and any run of operations none of
    which names the new session, the session is still the RESERVED row the
    Create returned, and its expiry check returns normally, leaves it CANCELED
    and leaves its item stored and available; when the check runs right after
    the Create and the item ids are a key too, the items are exactly as they
    were before the Create. *)
Theorem unstarted_reservation_expires (item_type_id user now : Z)
  (db db' : Store) (r : mnkSession) (ops : list Operation) :
  session_pk db ->
  create_mnk_session item_type_id user now db = (Ok r, db') ->
  (forall op, In op ops -> target op <> Some (s_id r)) ->
  session_of (s_id r) (perform_all ops db') = Some r
  /\ s_status r = RESERVED
  /\ fst (check_session_expiration (s_id r) (perform_all ops db')) = Ok tt
  /\ option_map s_status
       (session_of (s_id r)
          (after (check_session_expiration (s_id r)) (perform_all ops db')))
     = Some CANCELED
  /\ (exists it,
        item_of (s_item_id r)
          (after (check_session_expiration (s_id r)) (perform_all ops db'))
        = Some it
        /\ i_is_available it = true)
  /\ (item_pk db -> ops = [] ->
      items (after (check_session_expiration (s_id r)) db') = items db).
Proof.
  intros PK Hcreate Hops.
  assert (Hround : item_pk db ->
                   items (after (check_session_expiration (s_id r)) db') = items db).
  { intro IPK.
    now destruct (create_then_expiry_restores_items item_type_id user now db db' r
                    IPK PK Hcreate) as (_ & _ & E & _). }
  apply create_ok_inv in Hcreate.
  destruct Hcreate as (first & rest & Hf & -> & ->).
  set (r := new_session first user now db) in *.
  set (db' := created first user now db) in *.
  assert (PK' : session_pk db') by (now apply created_pk).
  assert (Hs : session_of (s_id r) db' = Some r) by (apply session_of_created).
  destruct (untargeted_run ops db' (s_id r) r PK' Hs Hops) as [PKb Hsb].
  assert (Hin : In first (items db)).
  { apply (proj1 (filter_In (available_of_type item_type_id) first (items db))).
    rewrite Hf. now left. }
  destruct (find_present (has_item_id (i_id first)) (items db) first Hin
              (Z.eqb_refl _)) as (y & Hy).
  destruct (find_item_update_stored (i_id first) (i_id first) false (items db) y Hy)
    as (it0 & Hit0).
  destruct (item_stored_along ops db' (s_item_id r) it0 PK' Hit0) as (it1 & Hit1).
  pose proof (expiration_of_reserved (s_id r) (perform_all ops db') r it1 PKb Hsb
                eq_refl Hit1) as E.
  unfold after at 1 2. rewrite E. cbn [fst snd].
  split; [exact Hsb|]. split; [reflexivity|]. split; [reflexivity|]. split; [|split].
  - now rewrite (session_of_expired (perform_all ops db') r Hsb).
  - exists (set_available true it1). split; [|reflexivity].
    now apply item_of_expired.
  - intros IPK _. now apply Hround.
Qed.

Lemma unstarted_reservation_expires_witness :
  exists r db',
    create_mnk_session 1 1 100 two_free_items = (Ok r, db')
    /\ option_map s_status
         (session_of (s_id r)
            (after (check_session_expiration (s_id r))
               (perform_all [Create 1 2 150; Start 2 9 200; Return 2 false "" 9 300 301]
                            db')))
       = Some CANCELED
    /\ (exists it,
          item_of (s_item_id r)
            (after (check_session_expiration (s_id r))
               (perform_all [Create 1 2 150; Start 2 9 200; Return 2 false "" 9 300 301]
                            db'))
          = Some it
          /\ i_is_available it = true).
Proof.
  do 2 eexists. split; [reflexivity|].
  assert (Hops : forall op,
             In op [Create 1 2 150; Start 2 9 200; Return 2 false "" 9 300 301] ->
             target op <> Some 1).
  { intros op [<-|[<-|[<-|[]]]] E; discriminate E. }
  pose proof (unstarted_reservation_expires 1 1 100 two_free_items _ _
                [Create 1 2 150; Start 2 9 200; Return 2 false "" 9 300 301]
                (NoDup_nil Z) eq_refl Hops) as H.
  destruct H as (_ & _ & _ & Hst & Hit & _). split; [exact Hst | exact Hit].
Defined.
